(** * mlx5 flow OS glue for Windows: a model of [mlx5_flow_os.c]

    The unit holds seven entry points: attribute validation, creation and
    destruction of flow matchers, and the action and flow-rule stubs.  The C
    code works on raw pointers, a per-thread [rte_errno] and three outside
    services (the allocator, its release function and the flow error
    setter).  The model keeps that shape: a typed object store indexed by
    addresses, an errno cell, and a log of the calls made to the services. *)

From Stdlib Require Import ZArith NArith List.
From stdpp Require Import base gmap list strings.

Local Open Scope Z_scope.

(** ** Pointers and plain data *)

(** A [void *]: the null pointer or the address of a live or dead object. *)
Inductive ptr : Type :=
  | NULL
  | Ptr (a : positive).

#[global] Instance ptr_eq_dec : EqDecision ptr.
Proof. solve_decision. Defined.

(** [struct rte_flow_attr]: two 32-bit counters and three one-bit flags.  The
    validator reads it through a const pointer and never writes it, so it is
    passed by value. *)
Record rte_flow_attr : Type := {
  group : N;
  priority : N;
  ingress : bool;
  egress : bool;
  transfer : bool
}.

(** [enum rte_flow_error_type], the members this unit can report plus the
    neutral one. *)
Inductive rte_flow_error_type : Type :=
  | RTE_FLOW_ERROR_TYPE_NONE
  | RTE_FLOW_ERROR_TYPE_ATTR_GROUP
  | RTE_FLOW_ERROR_TYPE_ATTR_PRIORITY
  | RTE_FLOW_ERROR_TYPE_ATTR_INGRESS
  | RTE_FLOW_ERROR_TYPE_ATTR_EGRESS
  | RTE_FLOW_ERROR_TYPE_ATTR_TRANSFER.

#[global] Instance rte_flow_error_type_eq_dec : EqDecision rte_flow_error_type.
Proof. solve_decision. Defined.

(** [struct rte_flow_error]: category, offending object, message. *)
Record rte_flow_error : Type := {
  type : rte_flow_error_type;
  cause : ptr;
  message : string
}.

(** [enum ibv_flow_attr_type]. *)
Inductive ibv_flow_attr_type : Type :=
  | IBV_FLOW_ATTR_NORMAL
  | IBV_FLOW_ATTR_ALL_DEFAULT
  | IBV_FLOW_ATTR_MC_DEFAULT
  | IBV_FLOW_ATTR_SNIFFER.

#[global] Instance ibv_flow_attr_type_eq_dec : EqDecision ibv_flow_attr_type.
Proof. solve_decision. Defined.

(** [struct mlx5dv_flow_match_parameters]: a length and the mask bytes. *)
Record mlx5dv_flow_match_parameters : Type := {
  match_sz : N;
  match_buf : list Byte.byte
}.

(** [struct mlx5dv_flow_matcher_attr].  The declaration sits in a header
    outside this unit; the code reads [type] and [match_mask] and copies the
    whole struct, so the other members only need to be carried along. *)
Record mlx5dv_flow_matcher_attr : Type := {
  attr_type : ibv_flow_attr_type;
  attr_flags : N;
  attr_priority : N;
  attr_match_criteria_enable : N;
  match_mask : ptr;
  attr_comp_mask : N;
  attr_ft_type : N
}.

(** [struct mlx5_matcher]: the context, an attribute copy and the trailing
    mask buffer. *)
Record mlx5_matcher : Type := {
  m_ctx : ptr;
  m_attr : mlx5dv_flow_matcher_attr;
  m_match_buf : list Byte.byte
}.

Definition set_m_ctx (c : ptr) (m : mlx5_matcher) : mlx5_matcher :=
  {| m_ctx := c; m_attr := m_attr m; m_match_buf := m_match_buf m |}.

Definition set_m_attr (a : mlx5dv_flow_matcher_attr) (m : mlx5_matcher)
  : mlx5_matcher :=
  {| m_ctx := m_ctx m; m_attr := a; m_match_buf := m_match_buf m |}.

Definition set_m_match_buf (b : list Byte.byte) (m : mlx5_matcher)
  : mlx5_matcher :=
  {| m_ctx := m_ctx m; m_attr := m_attr m; m_match_buf := b |}.

(** ** The object store *)

(** What an address can hold.  [OHandle] is a [void *] cell, the target of
    the [void **] output parameters. *)
Inductive obj : Type :=
  | OFlowError (e : rte_flow_error)
  | OMatcherAttr (a : mlx5dv_flow_matcher_attr)
  | OMatchParams (p : mlx5dv_flow_match_parameters)
  | OMatcher (m : mlx5_matcher)
  | OHandle (p : ptr).

(** The socket argument of the allocator. *)
Inductive socket_id : Type :=
  | SOCKET_ID_ANY
  | SOCKET (n : N).

(** Calls that leave the unit. *)
Inductive call : Type :=
  | CallMalloc (zero : bool) (size align : N) (socket : socket_id) (res : ptr)
  | CallFree (p : ptr)
  | CallFlowErrorSet (error : ptr) (code : Z) (ty : rte_flow_error_type)
      (cause : ptr) (msg : string).

(** The state a call runs in.  [alloc_plan] fixes what the allocator will
    answer on its next calls: an address to hand out, or a refusal. *)
Record world : Type := {
  rte_errno : Z;
  heap : gmap positive obj;
  alloc_plan : list (option positive);
  calls : list call
}.

Definition with_errno (e : Z) (w : world) : world :=
  {| rte_errno := e; heap := heap w; alloc_plan := alloc_plan w;
     calls := calls w |}.

Definition with_heap (h : gmap positive obj) (w : world) : world :=
  {| rte_errno := rte_errno w; heap := h; alloc_plan := alloc_plan w;
     calls := calls w |}.

Definition with_plan (p : list (option positive)) (w : world) : world :=
  {| rte_errno := rte_errno w; heap := heap w; alloc_plan := p;
     calls := calls w |}.

Definition with_call (c : call) (w : world) : world :=
  {| rte_errno := rte_errno w; heap := heap w; alloc_plan := alloc_plan w;
     calls := calls w ++ [c] |}.

(** ** Computations

    A computation maps a state to a result and a new state, or to [None]
    when the C program has no defined behaviour there (a null or dangling
    pointer is dereferenced, a copy runs past its source). *)
Definition exec (A : Type) : Type := world -> option (A * world).

Definition pure {A : Type} (x : A) : exec A := fun w => Some (x, w).

Definition andthen {A B : Type} (c : exec A) (k : A -> exec B) : exec B :=
  fun w => match c w with
           | Some (x, w') => k x w'
           | None => None
           end.

Definition undefined {A : Type} : exec A := fun _ => None.

Declare Scope exec_scope.
Delimit Scope exec_scope with exec.
Notation "x <- c ;; k" := (andthen c (fun x => k))
  (at level 100, c at next level, right associativity) : exec_scope.
Notation "c ;; k" := (andthen c (fun _ => k))
  (at level 100, right associativity) : exec_scope.
Local Open Scope exec_scope.

Definition set_rte_errno (e : Z) : exec unit :=
  fun w => Some (tt, with_errno e w).

Definition get_rte_errno : exec Z :=
  fun w => Some (rte_errno w, w).

Definition record_call (c : call) : exec unit :=
  fun w => Some (tt, with_call c w).

(** Read the object a pointer designates. *)
Definition load (p : ptr) : exec obj :=
  fun w => match p with
           | NULL => None
           | Ptr a => match heap w !! a with
                      | Some o => Some (o, w)
                      | None => None
                      end
           end.

(** Overwrite a live object. *)
Definition store (p : ptr) (o : obj) : exec unit :=
  fun w => match p with
           | NULL => None
           | Ptr a => match heap w !! a with
                      | Some _ => Some (tt, with_heap (<[a := o]> (heap w)) w)
                      | None => None
                      end
           end.

Definition load_matcher_attr (p : ptr) : exec mlx5dv_flow_matcher_attr :=
  o <- load p ;;
  match o with OMatcherAttr a => pure a | _ => undefined end.

Definition load_match_params (p : ptr) : exec mlx5dv_flow_match_parameters :=
  o <- load p ;;
  match o with OMatchParams mp => pure mp | _ => undefined end.

Definition load_matcher (p : ptr) : exec mlx5_matcher :=
  o <- load p ;;
  match o with OMatcher m => pure m | _ => undefined end.

(** [*out = v] for a [void **out]. *)
Definition store_handle (out : ptr) (v : ptr) : exec unit :=
  o <- load out ;;
  match o with OHandle _ => store out (OHandle v) | _ => undefined end.

(** [*error = e] for a [struct rte_flow_error *error]. *)
Definition store_flow_error (error : ptr) (e : rte_flow_error) : exec unit :=
  o <- load error ;;
  match o with OFlowError _ => store error (OFlowError e) | _ => undefined end.

(** [memcpy (dst, src, n)] on byte buffers: the first [n] bytes of [dst]
    become the first [n] bytes of [src]; both must be [n] bytes long at
    least. *)
Definition memcpy (dst src : list Byte.byte) (n : nat)
  : option (list Byte.byte) :=
  if (n <=? length src)%nat && (n <=? length dst)%nat
  then Some (firstn n src ++ skipn n dst)
  else None.

Definition lift_option {A : Type} (o : option A) : exec A :=
  fun w => match o with Some x => Some (x, w) | None => None end.

(** ** Outside services *)

(** Modelled from the spec: [rte_flow_error_set] lives in the flow library,
    outside this unit.  It is the error sink taking the error kind, the
    category tag, the offending object or null and the message; it fills
    the caller's structure when one is given, sets the last-error slot to
    the positive kind and hands back the negative kind as the status. *)
Definition rte_flow_error_set (error : ptr) (code : Z)
    (ty : rte_flow_error_type) (cause : ptr) (msg : string) : exec Z :=
  record_call (CallFlowErrorSet error code ty cause msg) ;;
  match error with
  | NULL => pure tt
  | Ptr _ => store_flow_error error {| type := ty; cause := cause;
                                       message := msg |}
  end ;;
  set_rte_errno code ;;
  pure (- code).

(** What the allocator answers in state [w]: the planned address when it is
    not in use, null otherwise. *)
Definition next_alloc (w : world) : ptr :=
  match alloc_plan w with
  | Some a :: _ => match heap w !! a with
                   | None => Ptr a
                   | Some _ => NULL
                   end
  | _ => NULL
  end.

(** Modelled from the spec: [mlx5_malloc] is the allocation service taking
    the zero-init flag, a size, an alignment and a locality hint, and
    returning a handle or null.  [blank] is the zero-filled block seen at
    the type the caller assigns the result to. *)
Definition mlx5_malloc (zero : bool) (size align : N) (socket : socket_id)
    (blank : obj) : exec ptr :=
  fun w =>
    let res := next_alloc w in
    let h := match res with
             | Ptr a => <[a := blank]> (heap w)
             | NULL => heap w
             end in
    Some (res,
          with_call (CallMalloc zero size align socket res)
            (with_plan (tail (alloc_plan w)) (with_heap h w))).

(** Modelled from the spec: [mlx5_free] releases an allocation; a null
    argument is accepted and ignored, a pointer to no live object is not. *)
Definition mlx5_free (p : ptr) : exec unit :=
  fun w =>
    match p with
    | NULL => Some (tt, with_call (CallFree p) w)
    | Ptr a => match heap w !! a with
               | Some _ =>
                   Some (tt, with_call (CallFree p)
                               (with_heap (delete a (heap w)) w))
               | None => None
               end
    end.

(** A run of writes through pointers, as a caller does when it reuses its
    own buffers after a call. *)
Fixpoint store_all (writes : list (ptr * obj)) : exec unit :=
  match writes with
  | [] => pure tt
  | (p, o) :: rest => store p o ;; store_all rest
  end.

(** Modelled from the spec: [RTE_SET_USED (x)] is a macro of a header
    outside this unit; it evaluates the name [x] in the scope of the
    function and throws the value away.  Section 9 of the specification
    records a body that refers to a name its signature does not declare as
    a defect; accordingly the marker is defined on the names in scope and
    on no other. *)
Definition RTE_SET_USED (x : string) (in_scope : list string) : exec unit :=
  if existsb (String.eqb x) in_scope then pure tt else undefined.

(** C truth value of an unsigned integer. *)
Definition nonzero (n : N) : bool := negb (n =? 0)%N.

(** ** Observations used in the statements *)

(** The error pointer is null or designates a [struct rte_flow_error]. *)
Definition error_sink_ok (w : world) (error : ptr) : bool :=
  match error with
  | NULL => true
  | Ptr a => match heap w !! a with
             | Some (OFlowError _) => true
             | _ => false
             end
  end.

(** The calls made between two states of one run. *)
Definition new_calls (w w' : world) : list call :=
  skipn (length (calls w)) (calls w').

Definition reported_type (c : call) : option rte_flow_error_type :=
  match c with
  | CallFlowErrorSet _ _ ty _ _ => Some ty
  | _ => None
  end.

(** The categories handed to the error sink between two states. *)
Definition reported_types (w w' : world) : list rte_flow_error_type :=
  omap reported_type (new_calls w w').

Definition reported_args (c : call)
  : option (Z * rte_flow_error_type * ptr * string) :=
  match c with
  | CallFlowErrorSet _ code ty cz msg => Some (code, ty, cz, msg)
  | _ => None
  end.

(** What the error sink was told between two states, the caller's error
    pointer left out. *)
Definition reports (w w' : world)
  : list (Z * rte_flow_error_type * ptr * string) :=
  omap reported_args (new_calls w w').

(** The constraint list of the validator as the specification words it:
    group, then priority, then transfer, then ingress; the first one
    violated names the category, none violated means acceptance. *)
Definition first_violation (a : rte_flow_attr)
  : option rte_flow_error_type :=
  if decide (group a <> 0%N) then Some RTE_FLOW_ERROR_TYPE_ATTR_GROUP
  else if decide (priority a <> 0%N) then Some RTE_FLOW_ERROR_TYPE_ATTR_PRIORITY
  else if decide (transfer a = true) then Some RTE_FLOW_ERROR_TYPE_ATTR_TRANSFER
  else if decide (ingress a = false) then Some RTE_FLOW_ERROR_TYPE_ATTR_INGRESS
  else None.

(** The handle a [void **] cell holds, and the matcher behind it. *)
Definition load_handle (out : ptr) : exec ptr :=
  o <- load out ;;
  match o with OHandle p => pure p | _ => undefined end.

Definition created_matcher (out : ptr) : exec mlx5_matcher :=
  h <- load_handle out ;;
  load_matcher h.

(** ** Sample data

    A caller's view of memory: an output cell still holding a stale handle,
    a descriptor of the normal type pointing to a four-byte mask, an error
    structure, a descriptor of another type and a second output cell. *)

Definition sample_mask : mlx5dv_flow_match_parameters :=
  {| match_sz := 4;
     match_buf := [Byte.x01; Byte.xff; Byte.x00; Byte.x10] |}.

Definition sample_normal_attr : mlx5dv_flow_matcher_attr :=
  {| attr_type := IBV_FLOW_ATTR_NORMAL; attr_flags := 3; attr_priority := 0;
     attr_match_criteria_enable := 1; match_mask := Ptr 3;
     attr_comp_mask := 0; attr_ft_type := 0 |}.

Definition sample_sniffer_attr : mlx5dv_flow_matcher_attr :=
  {| attr_type := IBV_FLOW_ATTR_SNIFFER; attr_flags := 0; attr_priority := 0;
     attr_match_criteria_enable := 0; match_mask := Ptr 3;
     attr_comp_mask := 0; attr_ft_type := 0 |}.

Definition sample_heap : gmap positive obj :=
  <[1%positive := OHandle (Ptr 77)]>
    (<[2%positive := OMatcherAttr sample_normal_attr]>
       (<[3%positive := OMatchParams sample_mask]>
          (<[4%positive := OFlowError {| type := RTE_FLOW_ERROR_TYPE_NONE;
                                         cause := NULL; message := "" |}]>
             (<[5%positive := OMatcherAttr sample_sniffer_attr]>
                (<[6%positive := OHandle (Ptr 78)]> ∅))))).

(** The allocator will hand out address 9 twice. *)
Definition sample_world : world :=
  {| rte_errno := 0; heap := sample_heap;
     alloc_plan := [Some 9%positive; Some 9%positive]; calls := [] |}.

(** The allocator will refuse. *)
Definition sample_world_nomem : world :=
  {| rte_errno := 0; heap := sample_heap; alloc_plan := [None];
     calls := [] |}.

Definition sample_attr_ok : rte_flow_attr :=
  {| group := 0; priority := 0; ingress := true; egress := true;
     transfer := false |}.

Definition sample_attr_group_priority : rte_flow_attr :=
  {| group := 3; priority := 2; ingress := false; egress := true;
     transfer := true |}.

Definition sample_attr_priority : rte_flow_attr :=
  {| group := 0; priority := 5; ingress := false; egress := false;
     transfer := true |}.

Definition sample_attr_transfer : rte_flow_attr :=
  {| group := 0; priority := 0; ingress := false; egress := false;
     transfer := true |}.

Definition sample_attr_egress_only : rte_flow_attr :=
  {| group := 0; priority := 0; ingress := false; egress := true;
     transfer := false |}.

(** A mask object longer than the fixed size whose [match_sz] says 2. *)
Definition sample_long_mask : mlx5dv_flow_match_parameters :=
  {| match_sz := 2;
     match_buf := [Byte.x0a; Byte.x0b; Byte.x0c; Byte.x0d; Byte.x0e;
                   Byte.x0f] |}.

Definition sample_world_long : world :=
  {| rte_errno := 7;
     heap := <[3%positive := OMatchParams sample_long_mask]> sample_heap;
     alloc_plan := [Some 9%positive; Some 10%positive]; calls := [] |}.

(** [attributes->egress = b]. *)
Definition with_egress (b : bool) (a : rte_flow_attr) : rte_flow_attr :=
  {| group := group a; priority := priority a; ingress := ingress a;
     egress := b; transfer := transfer a |}.

Section FlowOs.

(** Platform constants taken from headers outside this unit: the two errno
    values, [sizeof (struct mlx5_matcher)] and
    [MLX5_ST_SZ_BYTES (fte_match_param)]. *)
Variables ENOTSUP ENOMEM : Z.
Variable sizeof_mlx5_matcher : N.
Variable fte_match_param_bytes : nat.

(** ** The entry points *)

Definition mlx5_flow_os_validate_flow_attributes (dev : ptr)
    (attributes : rte_flow_attr) (external : bool) (error : ptr) : exec Z :=
  let ret := 1 in
  (* RTE_SET_USED (dev); RTE_SET_USED (external); *)
  if nonzero (group attributes) then
    rte_flow_error_set error ENOTSUP RTE_FLOW_ERROR_TYPE_ATTR_GROUP NULL
      "groups are not supported"
  else if nonzero (priority attributes) then
    rte_flow_error_set error ENOTSUP RTE_FLOW_ERROR_TYPE_ATTR_PRIORITY NULL
      "priorities are not supported"
  else if transfer attributes then
    rte_flow_error_set error ENOTSUP RTE_FLOW_ERROR_TYPE_ATTR_TRANSFER NULL
      "transfer not supported"
  else if negb (ingress attributes) then
    rte_flow_error_set error ENOTSUP RTE_FLOW_ERROR_TYPE_ATTR_INGRESS NULL
      "must specify ingress only"
  else pure ret.

(** The block [mlx5_malloc (MLX5_MEM_ZERO, ...)] returns, seen as a
    [struct mlx5_matcher] followed by its mask buffer: every member zero. *)
Definition blank_matcher : mlx5_matcher :=
  {| m_ctx := NULL;
     m_attr := {| attr_type := IBV_FLOW_ATTR_NORMAL; attr_flags := 0;
                  attr_priority := 0; attr_match_criteria_enable := 0;
                  match_mask := NULL; attr_comp_mask := 0;
                  attr_ft_type := 0 |};
     m_match_buf := repeat Byte.x00 fte_match_param_bytes |}.

(** The object a successful creation builds from the caller's context,
    descriptor and mask. *)
Definition built_matcher (ctx : ptr) (a : mlx5dv_flow_matcher_attr)
    (mask : mlx5dv_flow_match_parameters) : mlx5_matcher :=
  {| m_ctx := ctx; m_attr := a;
     m_match_buf := firstn fte_match_param_bytes (match_buf mask) |}.

(** [sizeof (struct mlx5_matcher) + MLX5_ST_SZ_BYTES (fte_match_param)]. *)
Definition alloc_size : N :=
  (sizeof_mlx5_matcher + N.of_nat fte_match_param_bytes)%N.

Definition mlx5_flow_os_create_flow_matcher (ctx attr table matcher : ptr)
  : exec Z :=
  (* RTE_SET_USED (table); *)
  store_handle matcher NULL ;;
  let mattr := attr in
  a <- load_matcher_attr mattr ;;
  if negb (bool_decide (attr_type a = IBV_FLOW_ATTR_NORMAL)) then
    set_rte_errno ENOTSUP ;;
    e <- get_rte_errno ;;
    pure (- e)
  else
    mlx5_matcher <- mlx5_malloc true alloc_size 0 SOCKET_ID_ANY
                      (OMatcher blank_matcher) ;;
    match mlx5_matcher with
    | NULL =>
        set_rte_errno ENOMEM ;;
        e <- get_rte_errno ;;
        pure (- e)
    | Ptr _ =>
        (* mlx5_matcher->ctx = ctx *)
        m <- load_matcher mlx5_matcher ;;
        store mlx5_matcher (OMatcher (set_m_ctx ctx m)) ;;
        (* memcpy (&mlx5_matcher->attr, attr, sizeof (mlx5_matcher->attr)) *)
        src <- load_matcher_attr attr ;;
        m <- load_matcher mlx5_matcher ;;
        store mlx5_matcher (OMatcher (set_m_attr src m)) ;;
        (* memcpy (&mlx5_matcher->match_buf, mattr->match_mask->match_buf,
                   MLX5_ST_SZ_BYTES (fte_match_param)) *)
        a <- load_matcher_attr mattr ;;
        mask <- load_match_params (match_mask a) ;;
        m <- load_matcher mlx5_matcher ;;
        buf <- lift_option (memcpy (m_match_buf m) (match_buf mask)
                              fte_match_param_bytes) ;;
        store mlx5_matcher (OMatcher (set_m_match_buf buf m)) ;;
        (* *matcher = mlx5_matcher *)
        store_handle matcher mlx5_matcher ;;
        pure 0
    end.

Definition mlx5_flow_os_destroy_flow_matcher (matcher : ptr) : exec Z :=
  mlx5_free matcher ;;
  pure 0.

Definition mlx5_flow_os_create_flow_action_dest_devx_tir (tir action : ptr)
  : exec Z :=
  (* RTE_SET_USED (tir); *)
  store_handle action NULL ;;
  set_rte_errno ENOTSUP ;;
  e <- get_rte_errno ;;
  pure (- e).

Definition mlx5_flow_os_destroy_flow_action (action : ptr) : exec Z :=
  (* RTE_SET_USED (action); *)
  set_rte_errno ENOTSUP ;;
  e <- get_rte_errno ;;
  pure (- e).

(** [actions] is the array behind the [void *actions[]] parameter; the
    function never looks at it, nor at [num_actions]. *)
Definition mlx5_flow_os_create_flow (matcher match_value : ptr)
    (num_actions : N) (actions : list ptr) (flow : ptr) : exec Z :=
  (* RTE_SET_USED on matcher, match_value, num_actions and actions *)
  store_handle flow NULL ;;
  set_rte_errno ENOTSUP ;;
  e <- get_rte_errno ;;
  pure (- e).

(** The only name in scope is the parameter [drv_flow_ptr]; the body marks
    [dev_flow_ptr].  In the functions above the marked names are the
    parameters themselves, where the marker does nothing. *)
Definition mlx5_flow_os_destroy_flow (drv_flow_ptr : ptr) : exec Z :=
  RTE_SET_USED "dev_flow_ptr" ["drv_flow_ptr"] ;;
  set_rte_errno ENOTSUP ;;
  e <- get_rte_errno ;;
  pure (- e).

(** ** Running the pieces *)

Ltac run :=
  cbv [andthen pure undefined set_rte_errno get_rte_errno record_call
       lift_option load store load_handle created_matcher load_matcher
       load_matcher_attr load_match_params store_handle store_flow_error].

Ltac lookup :=
  cbn [heap with_heap with_call with_plan with_errno];
  repeat (rewrite lookup_insert_eq
          || rewrite lookup_insert_ne by congruence);
  try eassumption; try reflexivity.

Lemma store_handle_run (s : positive) (old v : ptr) (w : world) :
  heap w !! s = Some (OHandle old) ->
  store_handle (Ptr s) v w
  = Some (tt, with_heap (<[s := OHandle v]> (heap w)) w).
Proof. intros H. run. rewrite H. cbn. rewrite H. reflexivity. Qed.

Lemma store_handle_inv (p v : ptr) (w w' : world) (u : unit) :
  store_handle p v w = Some (u, w') ->
  exists s old, p = Ptr s /\ heap w !! s = Some (OHandle old)
                /\ w' = with_heap (<[s := OHandle v]> (heap w)) w.
Proof.
  run. destruct p as [|s]; [discriminate|].
  destruct (heap w !! s) as [o|] eqn:E; [|discriminate].
  destruct o; try discriminate. cbn. rewrite E.
  intros [= <-]. eauto.
Qed.

Lemma rte_flow_error_set_run (error : ptr) (code : Z)
    (ty : rte_flow_error_type) (cz : ptr) (msg : string) (w : world) :
  error_sink_ok w error = true ->
  rte_flow_error_set error code ty cz msg w
  = Some (- code,
          with_errno code
            (with_heap
               (match error with
                | NULL => heap w
                | Ptr a => <[a := OFlowError {| type := ty; cause := cz;
                                                message := msg |}]> (heap w)
                end)
               (with_call (CallFlowErrorSet error code ty cz msg) w))).
Proof.
  unfold error_sink_ok, rte_flow_error_set. run.
  destruct error as [|a]; simpl; [reflexivity|].
  destruct (heap w !! a) as [[]|] eqn:E; try discriminate.
  intros _. cbn. rewrite E. reflexivity.
Qed.

Lemma rte_flow_error_set_status (error : ptr) (code : Z)
    (ty : rte_flow_error_type) (cz : ptr) (msg : string) (w w' : world)
    (r : Z) :
  rte_flow_error_set error code ty cz msg w = Some (r, w') ->
  r = - code /\ rte_errno w' = code.
Proof.
  unfold rte_flow_error_set. run.
  destruct error as [|a]; cbn.
  - intros [= <- <-]. split; reflexivity.
  - destruct (heap w !! a) as [[]|] eqn:E; try discriminate.
    cbn. rewrite E. intros [= <- <-]. split; reflexivity.
Qed.

Lemma new_calls_one (w w' : world) (c : call) :
  calls w' = calls w ++ [c] -> new_calls w w' = [c].
Proof. intros H. unfold new_calls. rewrite H. apply drop_app_length. Qed.

Lemma new_calls_none (w w' : world) :
  calls w' = calls w -> new_calls w w' = [].
Proof. intros H. unfold new_calls. rewrite H. apply drop_all. Qed.

Lemma andthen_run {A B : Type} (c : exec A) (k : A -> exec B)
    (w w' : world) (x : A) :
  c w = Some (x, w') -> andthen c k w = k x w'.
Proof. intros H. unfold andthen. rewrite H. reflexivity. Qed.

Lemma andthen_inv {A B : Type} (c : exec A) (k : A -> exec B)
    (w : world) (r : B * world) :
  andthen c k w = Some r ->
  exists x w', c w = Some (x, w') /\ k x w' = Some r.
Proof.
  unfold andthen. destruct (c w) as [[x w']|]; [|discriminate]. eauto.
Qed.

Lemma load_run (k : positive) (o : obj) (w : world) :
  heap w !! k = Some o -> load (Ptr k) w = Some (o, w).
Proof. intros H. unfold load. rewrite H. reflexivity. Qed.

Lemma load_inv (p : ptr) (o : obj) (w w' : world) :
  load p w = Some (o, w') ->
  exists k, p = Ptr k /\ heap w !! k = Some o /\ w' = w.
Proof.
  unfold load. destruct p as [|k]; [discriminate|].
  destruct (heap w !! k) eqn:E; [|discriminate]. intros [= <- <-]. eauto.
Qed.

Lemma store_run (k : positive) (o o' : obj) (w : world) :
  heap w !! k = Some o' ->
  store (Ptr k) o w = Some (tt, with_heap (<[k := o]> (heap w)) w).
Proof. intros H. unfold store. rewrite H. reflexivity. Qed.

Lemma load_matcher_attr_run (k : positive) (a : mlx5dv_flow_matcher_attr)
    (w : world) :
  heap w !! k = Some (OMatcherAttr a) ->
  load_matcher_attr (Ptr k) w = Some (a, w).
Proof.
  intros H. unfold load_matcher_attr.
  rewrite (andthen_run _ _ _ _ _ (load_run _ _ _ H)). reflexivity.
Qed.

Lemma load_matcher_attr_inv (p : ptr) (a : mlx5dv_flow_matcher_attr)
    (w w' : world) :
  load_matcher_attr p w = Some (a, w') ->
  exists k, p = Ptr k /\ heap w !! k = Some (OMatcherAttr a) /\ w' = w.
Proof.
  unfold load_matcher_attr. intros H.
  apply andthen_inv in H as (o & w1 & H1 & H2).
  apply load_inv in H1 as (k & -> & Hk & ->).
  destruct o; try discriminate. injection H2 as <- <-. eauto.
Qed.

Lemma load_match_params_run (k : positive)
    (mp : mlx5dv_flow_match_parameters) (w : world) :
  heap w !! k = Some (OMatchParams mp) ->
  load_match_params (Ptr k) w = Some (mp, w).
Proof.
  intros H. unfold load_match_params.
  rewrite (andthen_run _ _ _ _ _ (load_run _ _ _ H)). reflexivity.
Qed.

Lemma load_match_params_inv (p : ptr) (mp : mlx5dv_flow_match_parameters)
    (w w' : world) :
  load_match_params p w = Some (mp, w') ->
  exists k, p = Ptr k /\ heap w !! k = Some (OMatchParams mp) /\ w' = w.
Proof.
  unfold load_match_params. intros H.
  apply andthen_inv in H as (o & w1 & H1 & H2).
  apply load_inv in H1 as (k & -> & Hk & ->).
  destruct o; try discriminate. injection H2 as <- <-. eauto.
Qed.

Lemma load_matcher_run (k : positive) (m : mlx5_matcher) (w : world) :
  heap w !! k = Some (OMatcher m) ->
  load_matcher (Ptr k) w = Some (m, w).
Proof.
  intros H. unfold load_matcher.
  rewrite (andthen_run _ _ _ _ _ (load_run _ _ _ H)). reflexivity.
Qed.

Lemma load_handle_run (k : positive) (h : ptr) (w : world) :
  heap w !! k = Some (OHandle h) ->
  load_handle (Ptr k) w = Some (h, w).
Proof.
  intros H. unfold load_handle.
  rewrite (andthen_run _ _ _ _ _ (load_run _ _ _ H)). reflexivity.
Qed.

Lemma memcpy_blank (src : list Byte.byte) (n : nat) :
  (n <= length src)%nat ->
  memcpy (repeat Byte.x00 n) src n = Some (firstn n src).
Proof.
  intros H. unfold memcpy. rewrite repeat_length.
  rewrite (proj2 (Nat.leb_le _ _) H), Nat.leb_refl. cbn.
  rewrite skipn_all2 by (rewrite repeat_length; reflexivity).
  rewrite app_nil_r. reflexivity.
Qed.

Lemma memcpy_inv (dst src out : list Byte.byte) (n : nat) :
  memcpy dst src n = Some out ->
  (n <= length src)%nat /\ (n <= length dst)%nat
  /\ out = firstn n src ++ skipn n dst.
Proof.
  unfold memcpy.
  destruct (Nat.leb_spec n (length src)); cbn; [|discriminate].
  destruct (Nat.leb_spec n (length dst)); cbn; [|discriminate].
  intros [= <-]. auto.
Qed.

Lemma next_alloc_fresh (w : world) (m : positive) :
  next_alloc w = Ptr m -> heap w !! m = None.
Proof.
  unfold next_alloc. destruct (alloc_plan w) as [|[a|] ?]; try discriminate.
  destruct (heap w !! a) eqn:E; [discriminate|]. intros [= <-]. exact E.
Qed.

(** Writing to a live cell does not change the allocator's answer. *)
Lemma next_alloc_store (w : world) (k : positive) (o o' : obj) :
  heap w !! k = Some o' ->
  next_alloc (with_heap (<[k := o]> (heap w)) w) = next_alloc w.
Proof.
  intros H. unfold next_alloc. cbn.
  destruct (alloc_plan w) as [|[a|] ?]; try reflexivity.
  destruct (decide (k = a)) as [->|Hne].
  - rewrite lookup_insert_eq, H. reflexivity.
  - rewrite lookup_insert_ne by assumption. reflexivity.
Qed.

Lemma mlx5_malloc_run (zero : bool) (size align : N) (socket : socket_id)
    (blank : obj) (w : world) :
  mlx5_malloc zero size align socket blank w
  = Some (next_alloc w,
          with_call (CallMalloc zero size align socket (next_alloc w))
            (with_plan (tail (alloc_plan w))
               (with_heap (match next_alloc w with
                           | Ptr a => <[a := blank]> (heap w)
                           | NULL => heap w
                           end) w))).
Proof. reflexivity. Qed.

(** ** Attribute validation *)

(** The validator either accepts and leaves the state alone, or hands the
    first violated constraint to the error setter; which of the two, and
    with which category and message, is decided by the attributes alone. *)
Lemma validate_cases (a : rte_flow_attr) :
  (first_violation a = None
   /\ forall dev ext error w,
        mlx5_flow_os_validate_flow_attributes dev a ext error w
        = Some (1, w))
  \/ (exists ty msg,
        first_violation a = Some ty
        /\ forall dev ext error w,
             mlx5_flow_os_validate_flow_attributes dev a ext error w
             = rte_flow_error_set error ENOTSUP ty NULL msg w).
Proof.
  unfold mlx5_flow_os_validate_flow_attributes, first_violation, nonzero.
  destruct a as [g p i e t]; cbn.
  destruct (N.eqb_spec g 0) as [->|Hg]; cbn.
  2:{ right. rewrite decide_True by assumption. eauto. }
  rewrite decide_False by (intros H; apply H; reflexivity).
  destruct (N.eqb_spec p 0) as [->|Hp]; cbn.
  2:{ right. rewrite decide_True by assumption. eauto. }
  rewrite decide_False by (intros H; apply H; reflexivity).
  destruct t; cbn.
  { right. rewrite decide_True by reflexivity. eauto. }
  rewrite decide_False by discriminate.
  destruct i; cbn.
  - left. rewrite decide_False by discriminate. split; reflexivity.
  - right. rewrite decide_True by reflexivity. eauto.
Qed.

(** C1.  Attributes with group 0, priority 0, no transfer and ingress set
    are accepted with status 1, the root-table status, whatever [egress]
    is; and no input at all makes the validator return status 0. *)
Theorem validate_root_table_status (dev : ptr) (a : rte_flow_attr)
    (ext : bool) (error : ptr) (w : world) :
  0 < ENOTSUP ->
  (group a = 0%N -> priority a = 0%N -> transfer a = false ->
   ingress a = true ->
   mlx5_flow_os_validate_flow_attributes dev a ext error w = Some (1, w))
  /\ (forall w',
        mlx5_flow_os_validate_flow_attributes dev a ext error w
        <> Some (0, w')).
Proof.
  intros Hpos. split.
  - intros Hg Hp Ht Hi.
    destruct (validate_cases a) as [[_ H]|(ty & msg & Hv & _)];
      [apply H|].
    unfold first_violation in Hv.
    rewrite Hg, Hp, Ht, Hi in Hv. cbn in Hv. discriminate.
  - intros w' H.
    destruct (validate_cases a) as [[_ H1]|(ty & msg & _ & H1)];
      rewrite H1 in H.
    + discriminate.
    + apply rte_flow_error_set_status in H as [H _]. lia.
Qed.

(** C2.  A non-zero group is refused whatever the other attributes are: the
    status is the negated not-supported code, [rte_errno] holds that code,
    and the one report made to the error sink names the group attribute,
    which is also what the caller's error structure then holds. *)
Theorem validate_rejects_group (dev : ptr) (a : rte_flow_attr) (ext : bool)
    (error : ptr) (w : world) :
  0 < ENOTSUP ->
  error_sink_ok w error = true ->
  group a <> 0%N ->
  exists w',
    mlx5_flow_os_validate_flow_attributes dev a ext error w
    = Some (- ENOTSUP, w')
    /\ - ENOTSUP < 0
    /\ rte_errno w' = ENOTSUP
    /\ new_calls w w'
       = [CallFlowErrorSet error ENOTSUP RTE_FLOW_ERROR_TYPE_ATTR_GROUP NULL
            "groups are not supported"]
    /\ (forall e, error = Ptr e ->
         heap w' !! e
         = Some (OFlowError {| type := RTE_FLOW_ERROR_TYPE_ATTR_GROUP;
                               cause := NULL;
                               message := "groups are not supported" |})).
Proof.
  intros Hpos Hsink Hg.
  unfold mlx5_flow_os_validate_flow_attributes, nonzero.
  destruct (N.eqb_spec (group a) 0) as [E|_]; [contradiction|].
  cbv beta iota delta [negb].
  rewrite rte_flow_error_set_run by assumption.
  eexists. split; [reflexivity|].
  split; [lia|]. split; [reflexivity|].
  split; [apply new_calls_one; reflexivity|].
  intros e ->. cbn. apply lookup_insert_eq.
Qed.

(** C3.  The checks run in the order group, priority, transfer, ingress and
    the first violation is the only one reported; attributes breaking both
    the group and the priority rule are reported under the group category,
    in the call to the error sink and in the caller's error structure. *)
Theorem validate_first_violation_wins (dev : ptr) (a : rte_flow_attr)
    (ext : bool) (error : ptr) (w : world) :
  error_sink_ok w error = true ->
  exists r w',
    mlx5_flow_os_validate_flow_attributes dev a ext error w = Some (r, w')
    /\ reported_types w w' = option_list (first_violation a)
    /\ (group a <> 0%N -> priority a <> 0%N ->
        reported_types w w' = [RTE_FLOW_ERROR_TYPE_ATTR_GROUP]
        /\ forall e, error = Ptr e ->
             exists fe, heap w' !! e = Some (OFlowError fe)
                        /\ type fe = RTE_FLOW_ERROR_TYPE_ATTR_GROUP
                        /\ type fe <> RTE_FLOW_ERROR_TYPE_ATTR_PRIORITY).
Proof.
  intros Hsink.
  destruct (validate_cases a) as [[Hv H]|(ty & msg & Hv & H)]; rewrite H.
  - exists 1, w. split; [reflexivity|].
    unfold reported_types. rewrite new_calls_none by reflexivity.
    rewrite Hv. split; [reflexivity|].
    intros Hg _. unfold first_violation in Hv.
    rewrite decide_True in Hv by assumption. discriminate.
  - rewrite rte_flow_error_set_run by assumption.
    eexists _, _. split; [reflexivity|].
    unfold reported_types.
    rewrite (new_calls_one w _ (CallFlowErrorSet error ENOTSUP ty NULL msg))
      by reflexivity.
    rewrite Hv. split; [reflexivity|].
    intros Hg _. unfold first_violation in Hv.
    rewrite decide_True in Hv by assumption. injection Hv as <-.
    split; [reflexivity|].
    intros e ->. eexists. split; [apply lookup_insert_eq|].
    split; [reflexivity|discriminate].
Qed.

(** C10.  The device pointer and the [external] flag do not influence the
    validator: two calls on the same attributes, error sink and state give
    the same status and the same final state, error structure included.
    Across different states and sinks the status, what the sink is told and
    what a refusal writes into the caller's error structure still agree. *)
Theorem validate_ignores_dev_and_external (dev1 dev2 : ptr)
    (ext1 ext2 : bool) (a : rte_flow_attr) :
  (forall error w,
     mlx5_flow_os_validate_flow_attributes dev1 a ext1 error w
     = mlx5_flow_os_validate_flow_attributes dev2 a ext2 error w)
  /\ (forall err1 err2 w1 w2,
        error_sink_ok w1 err1 = true ->
        error_sink_ok w2 err2 = true ->
        exists r w1' w2',
          mlx5_flow_os_validate_flow_attributes dev1 a ext1 err1 w1
          = Some (r, w1')
          /\ mlx5_flow_os_validate_flow_attributes dev2 a ext2 err2 w2
             = Some (r, w2')
          /\ reports w1 w1' = reports w2 w2'
          /\ (r <> 1 -> forall e1 e2, err1 = Ptr e1 -> err2 = Ptr e2 ->
                         heap w1' !! e1 = heap w2' !! e2)).
Proof.
  split; [reflexivity|].
  intros err1 err2 w1 w2 H1 H2.
  destruct (validate_cases a) as [[_ H]|(ty & msg & _ & H)]; rewrite !H.
  - exists 1, w1, w2. split; [reflexivity|]. split; [reflexivity|].
    unfold reports. rewrite !new_calls_none by reflexivity.
    split; [reflexivity|]. intros Hr. contradiction.
  - rewrite !rte_flow_error_set_run by assumption.
    eexists _, _, _. split; [reflexivity|]. split; [reflexivity|].
    unfold reports.
    rewrite (new_calls_one w1 _
               (CallFlowErrorSet err1 ENOTSUP ty NULL msg)) by reflexivity.
    rewrite (new_calls_one w2 _
               (CallFlowErrorSet err2 ENOTSUP ty NULL msg)) by reflexivity.
    split; [reflexivity|].
    intros _ e1 e2 -> ->. cbn. rewrite !lookup_insert_eq. reflexivity.
Qed.

(** ** Matcher creation and destruction *)

Lemma create_flow_matcher_ok (ctx table : ptr) (s ka km m : positive)
    (old : ptr) (a : mlx5dv_flow_matcher_attr)
    (mp : mlx5dv_flow_match_parameters) (w : world) :
  heap w !! s = Some (OHandle old) ->
  heap w !! ka = Some (OMatcherAttr a) ->
  attr_type a = IBV_FLOW_ATTR_NORMAL ->
  match_mask a = Ptr km ->
  heap w !! km = Some (OMatchParams mp) ->
  (fte_match_param_bytes <= length (match_buf mp))%nat ->
  next_alloc w = Ptr m ->
  exists w',
    mlx5_flow_os_create_flow_matcher ctx (Ptr ka) table (Ptr s) w
    = Some (0, w')
    /\ heap w' = <[s := OHandle (Ptr m)]>
                   (<[m := OMatcher (built_matcher ctx a mp)]> (heap w))
    /\ rte_errno w' = rte_errno w
    /\ alloc_plan w' = tail (alloc_plan w)
    /\ calls w' = calls w ++ [CallMalloc true alloc_size 0 SOCKET_ID_ANY
                                (Ptr m)].
Proof.
  intros Hs Hka Hty Hmask Hkm Hlen Hm.
  assert (Hfresh := next_alloc_fresh _ _ Hm).
  assert (Hms : m <> s) by congruence.
  assert (Hmka : m <> ka) by congruence.
  assert (Hmkm : m <> km) by congruence.
  assert (Hska : s <> ka) by congruence.
  assert (Hskm : s <> km) by congruence.
  unfold mlx5_flow_os_create_flow_matcher.
  rewrite (andthen_run _ _ _ _ _ (store_handle_run s old NULL w Hs)).
  erewrite andthen_run
    by (apply load_matcher_attr_run; cbn; rewrite lookup_insert_ne; eassumption).
  rewrite Hty, bool_decide_eq_true_2 by reflexivity.
  cbv beta iota delta [negb].
  rewrite (andthen_run _ _ _ _ _ (mlx5_malloc_run _ _ _ _ _ _)).
  rewrite (next_alloc_store _ _ _ _ Hs), Hm.
  erewrite andthen_run by (apply load_matcher_run; lookup).
  erewrite andthen_run by (eapply store_run; lookup).
  erewrite andthen_run by (apply load_matcher_attr_run; lookup).
  erewrite andthen_run by (apply load_matcher_run; lookup).
  erewrite andthen_run by (eapply store_run; lookup).
  erewrite andthen_run by (apply load_matcher_attr_run; lookup).
  rewrite Hmask.
  erewrite andthen_run by (apply load_match_params_run; lookup).
  erewrite andthen_run by (apply load_matcher_run; lookup).
  cbn [m_match_buf set_m_attr set_m_ctx blank_matcher].
  rewrite (memcpy_blank _ _ Hlen).
  erewrite andthen_run by reflexivity.
  erewrite andthen_run by (eapply store_run; lookup).
  erewrite andthen_run by (eapply store_handle_run; lookup).
  eexists. split; [reflexivity|].
  split; [|repeat split].
  cbn. apply map_eq. intros k.
  destruct (decide (k = s)) as [->|Hks]; [lookup|].
  destruct (decide (k = m)) as [->|Hkm']; lookup.
Qed.

Lemma create_flow_matcher_unsupported (ctx table : ptr) (s ka : positive)
    (old : ptr) (a : mlx5dv_flow_matcher_attr) (w : world) :
  heap w !! s = Some (OHandle old) ->
  heap w !! ka = Some (OMatcherAttr a) ->
  attr_type a <> IBV_FLOW_ATTR_NORMAL ->
  mlx5_flow_os_create_flow_matcher ctx (Ptr ka) table (Ptr s) w
  = Some (- ENOTSUP,
          with_errno ENOTSUP (with_heap (<[s := OHandle NULL]> (heap w)) w)).
Proof.
  intros Hs Hka Hty.
  assert (Hska : s <> ka) by congruence.
  unfold mlx5_flow_os_create_flow_matcher.
  rewrite (andthen_run _ _ _ _ _ (store_handle_run s old NULL w Hs)).
  erewrite andthen_run by (apply load_matcher_attr_run; lookup).
  rewrite bool_decide_eq_false_2 by assumption. reflexivity.
Qed.

Lemma create_flow_matcher_nomem (ctx table : ptr) (s ka : positive)
    (old : ptr) (a : mlx5dv_flow_matcher_attr) (w : world) :
  heap w !! s = Some (OHandle old) ->
  heap w !! ka = Some (OMatcherAttr a) ->
  attr_type a = IBV_FLOW_ATTR_NORMAL ->
  next_alloc w = NULL ->
  mlx5_flow_os_create_flow_matcher ctx (Ptr ka) table (Ptr s) w
  = Some (- ENOMEM,
          with_errno ENOMEM
            (with_call (CallMalloc true alloc_size 0 SOCKET_ID_ANY NULL)
               (with_plan (tail (alloc_plan w))
                  (with_heap (<[s := OHandle NULL]> (heap w)) w)))).
Proof.
  intros Hs Hka Hty Hm.
  assert (Hska : s <> ka) by congruence.
  unfold mlx5_flow_os_create_flow_matcher.
  rewrite (andthen_run _ _ _ _ _ (store_handle_run s old NULL w Hs)).
  erewrite andthen_run by (apply load_matcher_attr_run; lookup).
  rewrite Hty, bool_decide_eq_true_2 by reflexivity.
  cbv beta iota delta [negb].
  rewrite (andthen_run _ _ _ _ _ (mlx5_malloc_run _ _ _ _ _ _)).
  rewrite (next_alloc_store _ _ _ _ Hs), Hm. reflexivity.
Qed.

(** Every defined run of the creation is one of the three above. *)
Lemma create_flow_matcher_inv (ctx attr table matcher : ptr) (w w' : world)
    (r : Z) :
  mlx5_flow_os_create_flow_matcher ctx attr table matcher w = Some (r, w') ->
  exists s old ka a,
    matcher = Ptr s /\ heap w !! s = Some (OHandle old)
    /\ attr = Ptr ka /\ heap w !! ka = Some (OMatcherAttr a)
    /\ ((attr_type a <> IBV_FLOW_ATTR_NORMAL /\ r = - ENOTSUP
         /\ w' = with_errno ENOTSUP
                   (with_heap (<[s := OHandle NULL]> (heap w)) w))
        \/ (attr_type a = IBV_FLOW_ATTR_NORMAL /\ next_alloc w = NULL
            /\ r = - ENOMEM
            /\ w' = with_errno ENOMEM
                      (with_call
                         (CallMalloc true alloc_size 0 SOCKET_ID_ANY NULL)
                         (with_plan (tail (alloc_plan w))
                            (with_heap (<[s := OHandle NULL]> (heap w)) w))))
        \/ (attr_type a = IBV_FLOW_ATTR_NORMAL /\ r = 0
            /\ exists m km mp,
                 next_alloc w = Ptr m /\ match_mask a = Ptr km
                 /\ heap w !! km = Some (OMatchParams mp)
                 /\ (fte_match_param_bytes <= length (match_buf mp))%nat
                 /\ heap w' = <[s := OHandle (Ptr m)]>
                                (<[m := OMatcher (built_matcher ctx a mp)]>
                                   (heap w))
                 /\ rte_errno w' = rte_errno w
                 /\ alloc_plan w' = tail (alloc_plan w)
                 /\ calls w' = calls w ++ [CallMalloc true alloc_size 0
                                             SOCKET_ID_ANY (Ptr m)])).
Proof.
  intros H. pose proof H as Hrun.
  unfold mlx5_flow_os_create_flow_matcher in H.
  apply andthen_inv in H as ([] & w1 & H1 & H).
  apply store_handle_inv in H1 as (s & old & -> & Hs & ->).
  apply andthen_inv in H as (a & w2 & H2 & H).
  apply load_matcher_attr_inv in H2 as (ka & -> & Hka & ->).
  cbn in Hka.
  assert (Hska : s <> ka).
  { intros ->. rewrite lookup_insert_eq in Hka. discriminate. }
  rewrite lookup_insert_ne in Hka by assumption.
  exists s, old, ka, a. do 4 (split; [first [reflexivity|assumption]|]).
  destruct (decide (attr_type a = IBV_FLOW_ATTR_NORMAL)) as [Hty|Hty].
  2:{ left. rewrite (create_flow_matcher_unsupported _ _ _ _ _ _ _ Hs Hka Hty)
        in Hrun. injection Hrun as <- <-. auto. }
  right.
  destruct (next_alloc w) as [|m] eqn:Hm.
  { left. rewrite (create_flow_matcher_nomem _ _ _ _ _ _ _ Hs Hka Hty Hm)
      in Hrun. injection Hrun as <- <-. auto. }
  right.
  assert (Hfresh := next_alloc_fresh _ _ Hm).
  assert (Hms : m <> s) by congruence.
  assert (Hmka : m <> ka) by congruence.
  rewrite bool_decide_eq_true_2 in H by assumption.
  cbv beta iota delta [negb] in H.
  rewrite (andthen_run _ _ _ _ _ (mlx5_malloc_run _ _ _ _ _ _)) in H.
  rewrite (next_alloc_store _ _ _ _ Hs), Hm in H.
  erewrite andthen_run in H by (apply load_matcher_run; lookup).
  erewrite andthen_run in H by (eapply store_run; lookup).
  erewrite andthen_run in H by (apply load_matcher_attr_run; lookup).
  erewrite andthen_run in H by (apply load_matcher_run; lookup).
  erewrite andthen_run in H by (eapply store_run; lookup).
  erewrite andthen_run in H by (apply load_matcher_attr_run; lookup).
  apply andthen_inv in H as (mp & w3 & H3 & H).
  apply load_match_params_inv in H3 as (km & Hmask & Hkm & ->).
  revert Hkm. lookup. intros Hkm.
  assert (Hmkm : m <> km).
  { intros <-. rewrite lookup_insert_eq in Hkm. discriminate. }
  rewrite !lookup_insert_ne in Hkm by assumption.
  assert (Hskm : s <> km).
  { intros <-. rewrite lookup_insert_eq in Hkm. discriminate. }
  rewrite lookup_insert_ne in Hkm by assumption.
  erewrite andthen_run in H by (apply load_matcher_run; lookup).
  apply andthen_inv in H as (buf & w4 & H4 & _).
  unfold lift_option in H4.
  destruct (memcpy _ _ _) as [buf'|] eqn:Hcpy; [|discriminate].
  apply memcpy_inv in Hcpy as (Hlen & _ & _).
  destruct (create_flow_matcher_ok ctx table s ka km m old a mp w
              Hs Hka Hty Hmask Hkm Hlen Hm) as (w0 & Hok & Hrest).
  rewrite Hok in Hrun. injection Hrun as <- <-.
  split; [assumption|]. split; [reflexivity|].
  exists m, km, mp. auto.
Qed.

Lemma destroy_flow_matcher_run (m : positive) (o : obj) (w : world) :
  heap w !! m = Some o ->
  mlx5_flow_os_destroy_flow_matcher (Ptr m) w
  = Some (0, with_call (CallFree (Ptr m)) (with_heap (delete m (heap w)) w)).
Proof.
  intros H. unfold mlx5_flow_os_destroy_flow_matcher, mlx5_free, andthen.
  rewrite H. reflexivity.
Qed.

(** Writes to cells other than the output cell and the matcher leave what
    the output cell leads to untouched. *)
Lemma store_all_keeps_matcher (writes : list (ptr * obj)) (s m : positive)
    (M : mlx5_matcher) (w w' : world) :
  Forall (fun po => fst po <> Ptr s /\ fst po <> Ptr m) writes ->
  heap w !! s = Some (OHandle (Ptr m)) ->
  heap w !! m = Some (OMatcher M) ->
  store_all writes w = Some (tt, w') ->
  heap w' !! s = Some (OHandle (Ptr m)) /\ heap w' !! m = Some (OMatcher M).
Proof.
  intros Hall. revert w. induction Hall as [|[p o] rest [Hps Hpm] _ IH];
    intros w Hs Hm Hrun.
  - injection Hrun as <-. auto.
  - cbn [store_all] in Hrun.
    apply andthen_inv in Hrun as ([] & w1 & H1 & Hrun).
    unfold store in H1. destruct p as [|k]; [discriminate|].
    destruct (heap w !! k); [|discriminate]. injection H1 as <-.
    cbn in Hps, Hpm. apply (IH _) in Hrun; [exact Hrun| |]; lookup.
Qed.

Lemma created_matcher_run (s m : positive) (M : mlx5_matcher) (w : world) :
  heap w !! s = Some (OHandle (Ptr m)) ->
  heap w !! m = Some (OMatcher M) ->
  created_matcher (Ptr s) w = Some (M, w).
Proof.
  intros Hs Hm. unfold created_matcher.
  rewrite (andthen_run _ _ _ _ _ (load_handle_run _ _ _ Hs)).
  apply load_matcher_run, Hm.
Qed.

(** C4.  Three of the four stubs fail with the not-supported code for any
    arguments, an empty action array or an empty match value included: the
    status is its negation, [rte_errno] holds it, and the two creation
    stubs have written null into the caller's output cell.  The fourth,
    the flow-rule destruction, does not: as written it marks the name
    [dev_flow_ptr], which its signature does not declare, and so has no
    defined result on any argument, where the claim and the sibling stub
    for actions have the not-supported failure. *)
Theorem action_and_flow_stubs_as_written
    (tir act matcher match_value drv_flow_ptr : ptr) (num_actions : N)
    (actions : list ptr) (sa sf : positive) (olda oldf : ptr) (w : world) :
  0 < ENOTSUP ->
  heap w !! sa = Some (OHandle olda) ->
  heap w !! sf = Some (OHandle oldf) ->
  - ENOTSUP < 0
  /\ mlx5_flow_os_create_flow_action_dest_devx_tir tir (Ptr sa) w
     = Some (- ENOTSUP,
             with_errno ENOTSUP
               (with_heap (<[sa := OHandle NULL]> (heap w)) w))
  /\ mlx5_flow_os_destroy_flow_action act w
     = Some (- ENOTSUP, with_errno ENOTSUP w)
  /\ mlx5_flow_os_create_flow matcher match_value num_actions actions
       (Ptr sf) w
     = Some (- ENOTSUP,
             with_errno ENOTSUP
               (with_heap (<[sf := OHandle NULL]> (heap w)) w))
  /\ mlx5_flow_os_destroy_flow drv_flow_ptr w = None.
Proof.
  intros Hpos Ha Hf. split; [lia|].
  unfold mlx5_flow_os_create_flow_action_dest_devx_tir,
    mlx5_flow_os_create_flow.
  rewrite (andthen_run _ _ _ _ _ (store_handle_run sa olda NULL w Ha)).
  rewrite (andthen_run _ _ _ _ _ (store_handle_run sf oldf NULL w Hf)).
  repeat split.
Qed.

(** C5.  With a descriptor of the normal type, a mask buffer of the fixed
    size and an allocator that delivers, creation succeeds; the matcher
    reached through the output cell holds the caller's context, a copy of
    the descriptor and exactly the caller's mask bytes; and whatever the
    caller later writes over its descriptor or its mask, the matcher reads
    back the same. *)
Theorem create_flow_matcher_copies_mask_and_attr (ctx table : ptr)
    (s ka km m : positive) (old : ptr) (a : mlx5dv_flow_matcher_attr)
    (mp : mlx5dv_flow_match_parameters) (w : world) :
  heap w !! s = Some (OHandle old) ->
  heap w !! ka = Some (OMatcherAttr a) ->
  attr_type a = IBV_FLOW_ATTR_NORMAL ->
  match_mask a = Ptr km ->
  heap w !! km = Some (OMatchParams mp) ->
  length (match_buf mp) = fte_match_param_bytes ->
  next_alloc w = Ptr m ->
  let M := {| m_ctx := ctx; m_attr := a; m_match_buf := match_buf mp |} in
  exists w',
    mlx5_flow_os_create_flow_matcher ctx (Ptr ka) table (Ptr s) w
    = Some (0, w')
    /\ created_matcher (Ptr s) w' = Some (M, w')
    /\ forall (writes : list (ptr * obj)) (w'' : world),
         Forall (fun po => fst po = Ptr ka \/ fst po = Ptr km) writes ->
         store_all writes w' = Some (tt, w'') ->
         created_matcher (Ptr s) w'' = Some (M, w'').
Proof.
  intros Hs Hka Hty Hmask Hkm Hlen Hm M.
  assert (Hfresh := next_alloc_fresh _ _ Hm).
  destruct (create_flow_matcher_ok ctx table s ka km m old a mp w
              Hs Hka Hty Hmask Hkm) as (w' & Hrun & Hheap & _);
    [lia|assumption|].
  assert (HM : built_matcher ctx a mp = M).
  { unfold built_matcher, M. rewrite <- Hlen, firstn_all. reflexivity. }
  rewrite HM in Hheap.
  assert (Hs' : heap w' !! s = Some (OHandle (Ptr m))).
  { rewrite Hheap. apply lookup_insert_eq. }
  assert (Hm' : heap w' !! m = Some (OMatcher M)).
  { rewrite Hheap. rewrite lookup_insert_ne by congruence.
    apply lookup_insert_eq. }
  exists w'. split; [exact Hrun|].
  split; [apply (created_matcher_run s m); assumption|].
  intros writes w'' Hall Hw.
  destruct (store_all_keeps_matcher writes s m M w' w'') as [Hs'' Hm''];
    try assumption.
  - eapply Forall_impl; [exact Hall|]. intros [p o]; cbn.
    intros [->| ->]; split; congruence.
  - apply (created_matcher_run s m); assumption.
Qed.

(** C6.  A descriptor whose type is not the normal one is refused with the
    not-supported code; the output cell holds null, the allocator has not
    been called and no object has appeared. *)
Theorem create_flow_matcher_rejects_other_types (ctx table : ptr)
    (s ka : positive) (old : ptr) (a : mlx5dv_flow_matcher_attr)
    (w : world) :
  0 < ENOTSUP ->
  heap w !! s = Some (OHandle old) ->
  heap w !! ka = Some (OMatcherAttr a) ->
  attr_type a <> IBV_FLOW_ATTR_NORMAL ->
  exists w',
    mlx5_flow_os_create_flow_matcher ctx (Ptr ka) table (Ptr s) w
    = Some (- ENOTSUP, w')
    /\ - ENOTSUP < 0
    /\ rte_errno w' = ENOTSUP
    /\ load_handle (Ptr s) w' = Some (NULL, w')
    /\ new_calls w w' = []
    /\ alloc_plan w' = alloc_plan w
    /\ heap w' = <[s := OHandle NULL]> (heap w).
Proof.
  intros Hpos Hs Hka Hty.
  rewrite (create_flow_matcher_unsupported ctx table s ka old a w Hs Hka Hty).
  eexists. split; [reflexivity|]. split; [lia|]. split; [reflexivity|].
  split; [apply load_handle_run; lookup|].
  split; [apply new_calls_none; reflexivity|]. split; reflexivity.
Qed.

(** C7.  When the allocator answers null for a normal descriptor, creation
    returns the negated out-of-memory code with [rte_errno] set to it and
    null in the output cell; and on every run that ends with a non-zero
    status the output cell holds null and the store has gained no object. *)
Theorem create_flow_matcher_failure_leaves_null (ctx table : ptr)
    (s ka : positive) (old : ptr) (a : mlx5dv_flow_matcher_attr)
    (w : world) :
  0 < ENOMEM ->
  heap w !! s = Some (OHandle old) ->
  heap w !! ka = Some (OMatcherAttr a) ->
  attr_type a = IBV_FLOW_ATTR_NORMAL ->
  next_alloc w = NULL ->
  (exists w',
     mlx5_flow_os_create_flow_matcher ctx (Ptr ka) table (Ptr s) w
     = Some (- ENOMEM, w')
     /\ - ENOMEM < 0
     /\ rte_errno w' = ENOMEM
     /\ load_handle (Ptr s) w' = Some (NULL, w')
     /\ heap w' = <[s := OHandle NULL]> (heap w))
  /\ (forall (ctx' attr' table' out : ptr) (w0 w1 : world) (r : Z),
        mlx5_flow_os_create_flow_matcher ctx' attr' table' out w0
        = Some (r, w1) ->
        r <> 0 ->
        load_handle out w1 = Some (NULL, w1)
        /\ exists s', out = Ptr s'
                      /\ heap w1 = <[s' := OHandle NULL]> (heap w0)).
Proof.
  intros Hpos Hs Hka Hty Hm. split.
  - rewrite (create_flow_matcher_nomem ctx table s ka old a w Hs Hka Hty Hm).
    eexists. split; [reflexivity|]. split; [lia|]. split; [reflexivity|].
    split; [apply load_handle_run; lookup|reflexivity].
  - intros ctx' attr' table' out w0 w1 r Hrun Hr.
    apply create_flow_matcher_inv in Hrun
      as (s' & old' & ka' & a' & -> & Hs' & -> & Hka'
          & [(_ & _ & ->)|[(_ & _ & _ & ->)|(_ & -> & _)]]).
    + split; [apply load_handle_run; lookup|]. eauto.
    + split; [apply load_handle_run; lookup|]. eauto.
    + contradiction.
Qed.

(** C8.  After a creation that returned 0 the output cell holds a non-null
    handle, and destroying that handle returns 0 and removes the matcher
    from the store. *)
Theorem destroy_created_flow_matcher (ctx attr table out : ptr)
    (w w1 : world) :
  0 < ENOTSUP ->
  0 < ENOMEM ->
  mlx5_flow_os_create_flow_matcher ctx attr table out w = Some (0, w1) ->
  exists m w2,
    load_handle out w1 = Some (Ptr m, w1)
    /\ mlx5_flow_os_destroy_flow_matcher (Ptr m) w1 = Some (0, w2)
    /\ heap w2 = delete m (heap w1).
Proof.
  intros Hsup Hmem Hrun.
  apply create_flow_matcher_inv in Hrun
    as (s & old & ka & a & -> & Hs & -> & Hka
        & [(_ & Hr & _)|[(_ & _ & Hr & _)|(_ & _ & m & km & mp & Hm & _ & _
                                            & _ & Hheap & _)]]);
    [lia|lia|].
  assert (Hfresh := next_alloc_fresh _ _ Hm).
  assert (Hms : m <> s) by congruence.
  exists m. eexists. split; [|split].
  - apply load_handle_run. rewrite Hheap. lookup.
  - eapply destroy_flow_matcher_run. rewrite Hheap. lookup.
  - reflexivity.
Qed.

(** C9.  Create, destroy, create again with the same arguments: when both
    creations return 0, the second matcher stores the same mask bytes as
    the first did (the two matchers are equal member for member), and the
    destruction in between returned 0. *)
Theorem create_destroy_create_same_mask (ctx attr table out h1 : ptr)
    (w0 w1 w2 w3 : world) (M1 M2 : mlx5_matcher) (rd : Z) :
  0 < ENOTSUP ->
  0 < ENOMEM ->
  mlx5_flow_os_create_flow_matcher ctx attr table out w0 = Some (0, w1) ->
  load_handle out w1 = Some (h1, w1) ->
  load_matcher h1 w1 = Some (M1, w1) ->
  mlx5_flow_os_destroy_flow_matcher h1 w1 = Some (rd, w2) ->
  mlx5_flow_os_create_flow_matcher ctx attr table out w2 = Some (0, w3) ->
  created_matcher out w3 = Some (M2, w3) ->
  m_match_buf M2 = m_match_buf M1 /\ M2 = M1 /\ rd = 0.
Proof.
  intros Hsup Hmem Hc1 Hh1 HM1 Hd Hc2 HM2.
  apply create_flow_matcher_inv in Hc1
    as (s & old & ka & a & -> & Hs & -> & Hka
        & [(_ & Hr & _)|[(_ & _ & Hr & _)|(Hty & _ & m & km & mp & Hm & Hmask
                                            & Hkm & Hlen & Hheap & _)]]);
    [lia|lia|].
  assert (Hfresh := next_alloc_fresh _ _ Hm).
  assert (Hms : m <> s) by congruence.
  assert (Hmka : m <> ka) by congruence.
  assert (Hmkm : m <> km) by congruence.
  assert (Hska : s <> ka) by congruence.
  assert (Hskm : s <> km) by congruence.
  assert (Hs1 : heap w1 !! s = Some (OHandle (Ptr m)))
    by (rewrite Hheap; lookup).
  assert (Hm1 : heap w1 !! m = Some (OMatcher (built_matcher ctx a mp)))
    by (rewrite Hheap; lookup).
  rewrite (load_handle_run _ _ _ Hs1) in Hh1. injection Hh1 as <-.
  rewrite (load_matcher_run _ _ _ Hm1) in HM1. injection HM1 as <-.
  rewrite (destroy_flow_matcher_run _ _ _ Hm1) in Hd. injection Hd as <- <-.
  apply create_flow_matcher_inv in Hc2
    as (s2 & old2 & ka2 & a2 & [= <-] & Hs2 & [= <-] & Hka2
        & [(_ & Hr & _)|[(_ & _ & Hr & _)|(_ & _ & m2 & km2 & mp2 & Hm2
                                            & Hmask2 & Hkm2 & _ & Hheap2
                                            & _)]]);
    [lia|lia|].
  cbn in Hka2, Hkm2.
  rewrite lookup_delete_ne, Hheap in Hka2 by congruence.
  rewrite !lookup_insert_ne, Hka in Hka2 by congruence.
  injection Hka2 as <-.
  rewrite Hmask in Hmask2. injection Hmask2 as <-.
  rewrite lookup_delete_ne, Hheap in Hkm2 by congruence.
  rewrite !lookup_insert_ne, Hkm in Hkm2 by congruence.
  injection Hkm2 as <-.
  assert (Hfresh2 := next_alloc_fresh _ _ Hm2). cbn in Hfresh2.
  assert (Hm2s : m2 <> s).
  { intros ->. rewrite lookup_delete_ne, Hs1 in Hfresh2 by congruence.
    discriminate. }
  assert (E : created_matcher (Ptr s) w3
              = Some (built_matcher ctx a mp, w3)).
  { apply (created_matcher_run s m2); rewrite Hheap2; lookup. }
  rewrite E in HM2. injection HM2 as <-. auto.
Qed.

(** ** Further properties of the validator *)

Lemma first_violation_none (a : rte_flow_attr) :
  first_violation a = None
  <-> group a = 0%N /\ priority a = 0%N /\ transfer a = false
      /\ ingress a = true.
Proof.
  unfold first_violation. destruct a as [g p i e t]; cbn.
  destruct (decide (g <> 0%N)) as [Hg|Hg].
  { split; [discriminate|]. intros (E & _). contradiction. }
  destruct (decide (p <> 0%N)) as [Hp|Hp].
  { split; [discriminate|]. intros (_ & E & _). contradiction. }
  apply dec_stable in Hg. apply dec_stable in Hp.
  destruct t, i; cbn; split; try discriminate; try tauto;
    intros (_ & _ & Ht & Hi); discriminate.
Qed.

Lemma rte_flow_error_set_defined (error : ptr) (code : Z)
    (ty : rte_flow_error_type) (cz : ptr) (msg : string) (w : world)
    (res : Z * world) :
  rte_flow_error_set error code ty cz msg w = Some res ->
  error_sink_ok w error = true.
Proof.
  unfold rte_flow_error_set, error_sink_ok. run.
  destruct error as [|a]; cbn; [reflexivity|].
  destruct (heap w !! a) as [[]|]; try discriminate. reflexivity.
Qed.

(** Every defined run of the validator, read backwards. *)
Lemma validate_inv (dev : ptr) (a : rte_flow_attr) (ext : bool)
    (error : ptr) (w w' : world) (r : Z) :
  mlx5_flow_os_validate_flow_attributes dev a ext error w = Some (r, w') ->
  (first_violation a = None /\ r = 1 /\ w' = w)
  \/ (exists ty msg,
        first_violation a = Some ty /\ error_sink_ok w error = true
        /\ r = - ENOTSUP
        /\ w' = with_errno ENOTSUP
                  (with_heap
                     (match error with
                      | NULL => heap w
                      | Ptr e => <[e := OFlowError {| type := ty;
                                                      cause := NULL;
                                                      message := msg |}]>
                                   (heap w)
                      end)
                     (with_call (CallFlowErrorSet error ENOTSUP ty NULL msg)
                        w))).
Proof.
  intros H.
  destruct (validate_cases a) as [[Hv H1]|(ty & msg & Hv & H1)];
    rewrite H1 in H.
  - injection H as <- <-. auto.
  - right. exists ty, msg. pose proof (rte_flow_error_set_defined _ _ _ _ _ _ _ H)
      as Hok.
    rewrite rte_flow_error_set_run in H by assumption.
    injection H as <- <-. auto.
Qed.

Ltac reject_tail :=
  rewrite rte_flow_error_set_run by assumption;
  eexists; split; [reflexivity|];
  split; [lia|]; split; [reflexivity|];
  split; [apply new_calls_one; reflexivity|];
  intros e ->; cbn; apply lookup_insert_eq.

(** X1.  A defined run of the validator returns 1 exactly when group and
    priority are 0, transfer is clear and ingress is set; it then leaves
    the state as it was.  Every other run returns the negated
    not-supported code, sets [rte_errno] to that code and tells the error
    sink one thing, with that code and a null cause. *)
Theorem validate_accepts_exactly (dev : ptr) (a : rte_flow_attr)
    (ext : bool) (error : ptr) (w w' : world) (r : Z) :
  0 < ENOTSUP ->
  mlx5_flow_os_validate_flow_attributes dev a ext error w = Some (r, w') ->
  (r = 1 <-> group a = 0%N /\ priority a = 0%N /\ transfer a = false
             /\ ingress a = true)
  /\ (r = 1 \/ r = - ENOTSUP)
  /\ (r = 1 -> w' = w)
  /\ (r <> 1 ->
      rte_errno w' = ENOTSUP
      /\ exists ty msg, reports w w' = [(ENOTSUP, ty, NULL, msg)]).
Proof.
  intros Hpos H.
  apply validate_inv in H
    as [(Hv & -> & ->)|(ty & msg & Hv & Hok & -> & ->)].
  - apply first_violation_none in Hv.
    split; [tauto|]. split; [left; reflexivity|].
    split; [reflexivity|]. intros Hne. contradiction.
  - assert (Hnot : ~ (group a = 0%N /\ priority a = 0%N
                      /\ transfer a = false /\ ingress a = true)).
    { intros Hacc. apply first_violation_none in Hacc. congruence. }
    split; [split; [lia|tauto]|]. split; [right; reflexivity|].
    split; [lia|]. intros _. split; [reflexivity|].
    exists ty, msg. unfold reports.
    rewrite (new_calls_one w _
               (CallFlowErrorSet error ENOTSUP ty NULL msg)) by reflexivity.
    reflexivity.
Qed.

(** X2.  With group 0 and a non-zero priority the validator refuses under
    the priority category with the message "priorities are not supported",
    whatever transfer, ingress and egress are. *)
Theorem validate_rejects_priority (dev : ptr) (a : rte_flow_attr)
    (ext : bool) (error : ptr) (w : world) :
  0 < ENOTSUP ->
  error_sink_ok w error = true ->
  group a = 0%N ->
  priority a <> 0%N ->
  exists w',
    mlx5_flow_os_validate_flow_attributes dev a ext error w
    = Some (- ENOTSUP, w')
    /\ - ENOTSUP < 0
    /\ rte_errno w' = ENOTSUP
    /\ new_calls w w'
       = [CallFlowErrorSet error ENOTSUP RTE_FLOW_ERROR_TYPE_ATTR_PRIORITY
            NULL "priorities are not supported"]
    /\ (forall e, error = Ptr e ->
         heap w' !! e
         = Some (OFlowError {| type := RTE_FLOW_ERROR_TYPE_ATTR_PRIORITY;
                               cause := NULL;
                               message := "priorities are not supported" |})).
Proof.
  intros Hpos Hsink Hg Hp.
  unfold mlx5_flow_os_validate_flow_attributes, nonzero. rewrite Hg.
  change (0 =? 0)%N with true.
  destruct (N.eqb_spec (priority a) 0) as [E|_]; [contradiction|].
  cbv beta iota delta [negb]. reject_tail.
Qed.

(** X3.  With group and priority 0 and transfer set the validator refuses
    under the transfer category with the message "transfer not supported",
    whatever ingress and egress are. *)
Theorem validate_rejects_transfer (dev : ptr) (a : rte_flow_attr)
    (ext : bool) (error : ptr) (w : world) :
  0 < ENOTSUP ->
  error_sink_ok w error = true ->
  group a = 0%N ->
  priority a = 0%N ->
  transfer a = true ->
  exists w',
    mlx5_flow_os_validate_flow_attributes dev a ext error w
    = Some (- ENOTSUP, w')
    /\ - ENOTSUP < 0
    /\ rte_errno w' = ENOTSUP
    /\ new_calls w w'
       = [CallFlowErrorSet error ENOTSUP RTE_FLOW_ERROR_TYPE_ATTR_TRANSFER
            NULL "transfer not supported"]
    /\ (forall e, error = Ptr e ->
         heap w' !! e
         = Some (OFlowError {| type := RTE_FLOW_ERROR_TYPE_ATTR_TRANSFER;
                               cause := NULL;
                               message := "transfer not supported" |})).
Proof.
  intros Hpos Hsink Hg Hp Ht.
  unfold mlx5_flow_os_validate_flow_attributes, nonzero.
  rewrite Hg, Hp, Ht. change (0 =? 0)%N with true.
  cbv beta iota delta [negb]. reject_tail.
Qed.

(** X4.  With group and priority 0, transfer clear and ingress clear the
    validator refuses under the ingress category with the message "must
    specify ingress only": a rule for egress alone, or for no direction,
    is not accepted. *)
Theorem validate_rejects_missing_ingress (dev : ptr) (a : rte_flow_attr)
    (ext : bool) (error : ptr) (w : world) :
  0 < ENOTSUP ->
  error_sink_ok w error = true ->
  group a = 0%N ->
  priority a = 0%N ->
  transfer a = false ->
  ingress a = false ->
  exists w',
    mlx5_flow_os_validate_flow_attributes dev a ext error w
    = Some (- ENOTSUP, w')
    /\ - ENOTSUP < 0
    /\ rte_errno w' = ENOTSUP
    /\ new_calls w w'
       = [CallFlowErrorSet error ENOTSUP RTE_FLOW_ERROR_TYPE_ATTR_INGRESS
            NULL "must specify ingress only"]
    /\ (forall e, error = Ptr e ->
         heap w' !! e
         = Some (OFlowError {| type := RTE_FLOW_ERROR_TYPE_ATTR_INGRESS;
                               cause := NULL;
                               message := "must specify ingress only" |})).
Proof.
  intros Hpos Hsink Hg Hp Ht Hi.
  unfold mlx5_flow_os_validate_flow_attributes, nonzero.
  rewrite Hg, Hp, Ht, Hi. change (0 =? 0)%N with true.
  cbv beta iota delta [negb]. reject_tail.
Qed.

(** X5.  The validator never looks at the egress bit: setting or clearing
    it changes neither the status nor the final state.  In particular a
    rule with ingress and egress both set is treated like one with ingress
    alone. *)
Theorem validate_ignores_egress (dev : ptr) (a : rte_flow_attr) (b ext : bool)
    (error : ptr) (w : world) :
  mlx5_flow_os_validate_flow_attributes dev (with_egress b a) ext error w
  = mlx5_flow_os_validate_flow_attributes dev a ext error w.
Proof. destruct a; reflexivity. Qed.

(** X6.  Whatever the validator decides, it leaves the allocation plan
    alone, calls neither the allocator nor the release function, creates
    and removes no object, and changes no object other than the caller's
    error structure; with a null error pointer the store is unchanged. *)
Theorem validate_touches_only_error (dev : ptr) (a : rte_flow_attr)
    (ext : bool) (error : ptr) (w w' : world) (r : Z) :
  mlx5_flow_os_validate_flow_attributes dev a ext error w = Some (r, w') ->
  alloc_plan w' = alloc_plan w
  /\ (forall k, error <> Ptr k -> heap w' !! k = heap w !! k)
  /\ (forall k, is_Some (heap w' !! k) <-> is_Some (heap w !! k))
  /\ (error = NULL -> heap w' = heap w)
  /\ (new_calls w w' = []
      \/ exists ty msg,
           new_calls w w' = [CallFlowErrorSet error ENOTSUP ty NULL msg]).
Proof.
  intros H.
  apply validate_inv in H
    as [(Hv & -> & ->)|(ty & msg & Hv & Hok & -> & ->)].
  - repeat split; auto. left. apply new_calls_none. reflexivity.
  - split; [reflexivity|].
    split.
    { intros k Hk. destruct error as [|e]; cbn; [reflexivity|].
      apply lookup_insert_ne. congruence. }
    split.
    { intros k. destruct error as [|e]; cbn; [reflexivity|].
      unfold error_sink_ok in Hok.
      destruct (heap w !! e) as [o|] eqn:E; [|discriminate].
      destruct (decide (e = k)) as [<-|Hne].
      - rewrite lookup_insert_eq, E. split; eauto.
      - rewrite lookup_insert_ne by assumption. reflexivity. }
    split; [intros ->; reflexivity|].
    right. exists ty, msg. apply new_calls_one. reflexivity.
Qed.

(** ** Further properties of the matcher functions *)

Lemma new_calls_two (w w' : world) (c d : call) :
  calls w' = (calls w ++ [c]) ++ [d] -> new_calls w w' = [c; d].
Proof.
  intros H. unfold new_calls. rewrite H, <- app_assoc.
  apply drop_app_length.
Qed.

(** X7.  The statuses of matcher creation are 0 and the two negated error
    codes.  A failure leaves the positive code in [rte_errno]; a success
    does not touch [rte_errno], so a stale value stays there. *)
Theorem create_flow_matcher_errno_contract (ctx attr table out : ptr)
    (w w' : world) (r : Z) :
  0 < ENOTSUP ->
  0 < ENOMEM ->
  mlx5_flow_os_create_flow_matcher ctx attr table out w = Some (r, w') ->
  (r = 0 \/ r = - ENOTSUP \/ r = - ENOMEM)
  /\ (r = 0 -> rte_errno w' = rte_errno w)
  /\ (r <> 0 -> r < 0 /\ rte_errno w' = - r).
Proof.
  intros Hsup Hmem Hrun.
  apply create_flow_matcher_inv in Hrun
    as (s & old & ka & a & -> & Hs & -> & Hka
        & [(_ & -> & ->)|[(_ & _ & -> & ->)|(_ & -> & m & km & mp & _ & _ & _
                                              & _ & _ & Herr & _)]]).
  - split; [auto|]. split; [lia|]. intros _. cbn. lia.
  - split; [auto|]. split; [lia|]. intros _. cbn. lia.
  - split; [auto|]. split; [auto|]. intros H. contradiction.
Qed.

(** X8.  For a descriptor of the normal type the creation asks the
    allocator exactly once, for a zeroed block of the header size plus the
    fixed mask size, alignment 0, any socket, and calls nothing else,
    whether the allocator delivers or not. *)
Theorem create_flow_matcher_one_allocation (ctx table out : ptr)
    (ka : positive) (a : mlx5dv_flow_matcher_attr) (w w' : world) (r : Z) :
  mlx5_flow_os_create_flow_matcher ctx (Ptr ka) table out w = Some (r, w') ->
  heap w !! ka = Some (OMatcherAttr a) ->
  attr_type a = IBV_FLOW_ATTR_NORMAL ->
  new_calls w w'
  = [CallMalloc true
       (sizeof_mlx5_matcher + N.of_nat fte_match_param_bytes)%N 0
       SOCKET_ID_ANY (next_alloc w)]
  /\ alloc_plan w' = tail (alloc_plan w).
Proof.
  intros Hrun Hka Hty.
  apply create_flow_matcher_inv in Hrun
    as (s & old & ka' & a' & -> & Hs & [= <-] & Hka'
        & [(Hty' & _)|[(_ & Hm & _ & ->)|(_ & _ & m & km & mp & Hm & _ & _
                                           & _ & _ & _ & Hplan & Hcalls)]]).
  - rewrite Hka in Hka'. injection Hka' as <-. contradiction.
  - rewrite Hm. split; [apply new_calls_one|]; reflexivity.
  - rewrite Hm. split; [apply new_calls_one|]; assumption.
Qed.

(** X9.  A creation, successful or not, writes only to the caller's output
    cell and to the block the allocator hands out: every other object is
    as before, the caller's descriptor included. *)
Theorem create_flow_matcher_frame (ctx attr table out : ptr)
    (w w' : world) (r : Z) :
  mlx5_flow_os_create_flow_matcher ctx attr table out w = Some (r, w') ->
  (forall k, out <> Ptr k -> next_alloc w <> Ptr k ->
             heap w' !! k = heap w !! k)
  /\ (forall ka, attr = Ptr ka -> heap w' !! ka = heap w !! ka).
Proof.
  intros Hrun.
  apply create_flow_matcher_inv in Hrun
    as (s & old & ka & a & -> & Hs & -> & Hka & Hcases).
  assert (Hska : s <> ka) by congruence.
  assert (Hframe : forall k, Ptr s <> Ptr k -> next_alloc w <> Ptr k ->
                             heap w' !! k = heap w !! k).
  { intros k Hk Hnk.
    destruct Hcases
      as [(_ & _ & ->)|[(_ & _ & _ & ->)|(_ & _ & m & km & mp & Hm & _ & _
                                           & _ & Hheap & _)]].
    - cbn. apply lookup_insert_ne. congruence.
    - cbn. apply lookup_insert_ne. congruence.
    - rewrite Hheap, !lookup_insert_ne by congruence. reflexivity. }
  split; [exact Hframe|].
  intros ka' [= <-]. apply Hframe; [congruence|].
  intros Hm. apply next_alloc_fresh in Hm. congruence.
Qed.

(** X10.  The creation copies the fixed number of mask bytes whatever the
    caller's [match_sz] says: from a buffer at least that long the matcher
    stores its first bytes, so the stored mask always has the fixed
    length. *)
Theorem create_flow_matcher_mask_prefix (ctx table : ptr)
    (s ka km m : positive) (old : ptr) (a : mlx5dv_flow_matcher_attr)
    (mp : mlx5dv_flow_match_parameters) (w : world) :
  heap w !! s = Some (OHandle old) ->
  heap w !! ka = Some (OMatcherAttr a) ->
  attr_type a = IBV_FLOW_ATTR_NORMAL ->
  match_mask a = Ptr km ->
  heap w !! km = Some (OMatchParams mp) ->
  (fte_match_param_bytes <= length (match_buf mp))%nat ->
  next_alloc w = Ptr m ->
  exists w' M,
    mlx5_flow_os_create_flow_matcher ctx (Ptr ka) table (Ptr s) w
    = Some (0, w')
    /\ created_matcher (Ptr s) w' = Some (M, w')
    /\ m_match_buf M = firstn fte_match_param_bytes (match_buf mp)
    /\ length (m_match_buf M) = fte_match_param_bytes
    /\ m_ctx M = ctx
    /\ m_attr M = a.
Proof.
  intros Hs Hka Hty Hmask Hkm Hlen Hm.
  assert (Hfresh := next_alloc_fresh _ _ Hm).
  destruct (create_flow_matcher_ok ctx table s ka km m old a mp w
              Hs Hka Hty Hmask Hkm Hlen Hm) as (w' & Hrun & Hheap & _).
  exists w', (built_matcher ctx a mp). split; [exact Hrun|].
  split.
  { apply (created_matcher_run s m); rewrite Hheap.
    - apply lookup_insert_eq.
    - rewrite lookup_insert_ne by congruence. apply lookup_insert_eq. }
  split; [reflexivity|]. split; [|split; reflexivity].
  cbn. rewrite length_take. lia.
Qed.

(** X11.  Creating a matcher and destroying it gives the block back: the
    store is as before the creation except for the caller's output cell,
    which still holds the handle; that handle now designates nothing.  The
    two calls made are the allocation and the release of that handle. *)
Theorem create_then_destroy_restores_store (ctx attr table out h : ptr)
    (w w1 w2 : world) (rd : Z) :
  0 < ENOTSUP ->
  0 < ENOMEM ->
  mlx5_flow_os_create_flow_matcher ctx attr table out w = Some (0, w1) ->
  load_handle out w1 = Some (h, w1) ->
  mlx5_flow_os_destroy_flow_matcher h w1 = Some (rd, w2) ->
  rd = 0
  /\ (forall k, out <> Ptr k -> heap w2 !! k = heap w !! k)
  /\ load_handle out w2 = Some (h, w2)
  /\ load h w2 = None
  /\ new_calls w w2
     = [CallMalloc true alloc_size 0 SOCKET_ID_ANY h; CallFree h].
Proof.
  intros Hsup Hmem Hc Hh Hd.
  apply create_flow_matcher_inv in Hc
    as (s & old & ka & a & -> & Hs & -> & Hka
        & [(_ & Hr & _)|[(_ & _ & Hr & _)|(_ & _ & m & km & mp & Hm & _ & _
                                            & _ & Hheap & _ & _ & Hcalls)]]);
    [lia|lia|].
  assert (Hfresh := next_alloc_fresh _ _ Hm).
  assert (Hms : m <> s) by congruence.
  assert (Hs1 : heap w1 !! s = Some (OHandle (Ptr m)))
    by (rewrite Hheap; lookup).
  assert (Hm1 : heap w1 !! m = Some (OMatcher (built_matcher ctx a mp)))
    by (rewrite Hheap; lookup).
  rewrite (load_handle_run _ _ _ Hs1) in Hh. injection Hh as <-.
  rewrite (destroy_flow_matcher_run _ _ _ Hm1) in Hd.
  injection Hd as <- <-.
  split; [reflexivity|]. split.
  { intros k Hk. cbn. rewrite Hheap.
    destruct (decide (k = m)) as [->|Hkm].
    - rewrite lookup_delete_eq. symmetry. exact Hfresh.
    - rewrite lookup_delete_ne, !lookup_insert_ne by congruence.
      reflexivity. }
  split.
  { apply load_handle_run. cbn.
    rewrite lookup_delete_ne by congruence. exact Hs1. }
  split.
  { unfold load. cbn. rewrite lookup_delete_eq. reflexivity. }
  apply new_calls_two. cbn. rewrite Hcalls. reflexivity.
Qed.

(** X12.  A later creation never disturbs a matcher that is still alive:
    the earlier object reads back the same afterwards, and when the later
    creation succeeds its handle differs from the earlier one. *)
Theorem create_flow_matcher_keeps_earlier (ctx1 attr1 table1 out1 : ptr)
    (ctx2 attr2 table2 out2 : ptr) (m1 : positive) (w w1 w2 : world)
    (r2 : Z) :
  0 < ENOTSUP ->
  0 < ENOMEM ->
  mlx5_flow_os_create_flow_matcher ctx1 attr1 table1 out1 w = Some (0, w1) ->
  load_handle out1 w1 = Some (Ptr m1, w1) ->
  mlx5_flow_os_create_flow_matcher ctx2 attr2 table2 out2 w1
  = Some (r2, w2) ->
  (exists M1, heap w1 !! m1 = Some (OMatcher M1)
              /\ heap w2 !! m1 = Some (OMatcher M1))
  /\ (r2 = 0 -> exists m2, load_handle out2 w2 = Some (Ptr m2, w2)
                           /\ m2 <> m1).
Proof.
  intros Hsup Hmem Hc1 Hh1 Hc2.
  apply create_flow_matcher_inv in Hc1
    as (s & old & ka & a & -> & Hs & -> & Hka
        & [(_ & Hr & _)|[(_ & _ & Hr & _)|(_ & _ & m & km & mp & Hm & _ & _
                                            & _ & Hheap & _)]]);
    [lia|lia|].
  assert (Hfresh := next_alloc_fresh _ _ Hm).
  assert (Hms : m <> s) by congruence.
  assert (Hs1 : heap w1 !! s = Some (OHandle (Ptr m)))
    by (rewrite Hheap; lookup).
  assert (Hm1 : heap w1 !! m = Some (OMatcher (built_matcher ctx1 a mp)))
    by (rewrite Hheap; lookup).
  rewrite (load_handle_run _ _ _ Hs1) in Hh1. injection Hh1 as <-.
  apply create_flow_matcher_inv in Hc2
    as (s2 & old2 & ka2 & a2 & -> & Hs2 & -> & Hka2 & Hcases).
  assert (Hs2m : s2 <> m) by congruence.
  destruct Hcases
    as [(_ & -> & ->)|[(_ & _ & -> & ->)|(_ & -> & m2 & km2 & mp2 & Hm2 & _
                                           & _ & _ & Hheap2 & _)]].
  - split; [|lia]. eexists. split; [exact Hm1|]. cbn.
    rewrite lookup_insert_ne by assumption. exact Hm1.
  - split; [|lia]. eexists. split; [exact Hm1|]. cbn.
    rewrite lookup_insert_ne by assumption. exact Hm1.
  - assert (Hfresh2 := next_alloc_fresh _ _ Hm2).
    assert (Hm2m : m2 <> m) by congruence.
    split.
    + eexists. split; [exact Hm1|].
      rewrite Hheap2, !lookup_insert_ne by congruence. exact Hm1.
    + intros _. exists m2. split; [|exact Hm2m].
      apply load_handle_run. rewrite Hheap2. apply lookup_insert_eq.
Qed.

Lemma create_flow_run (matcher match_value : ptr) (num_actions : N)
    (actions : list ptr) (sf : positive) (oldf : ptr) (w : world) :
  heap w !! sf = Some (OHandle oldf) ->
  mlx5_flow_os_create_flow matcher match_value num_actions actions (Ptr sf) w
  = Some (- ENOTSUP,
          with_errno ENOTSUP (with_heap (<[sf := OHandle NULL]> (heap w)) w)).
Proof.
  intros Hsf. unfold mlx5_flow_os_create_flow.
  rewrite (andthen_run _ _ _ _ _ (store_handle_run sf oldf NULL w Hsf)).
  reflexivity.
Qed.

(** X13.  After a matcher is created, the flow-rule stub fails with the
    not-supported code without harming the matcher: with a flow output
    cell other than the matcher's, the matcher reads back unchanged and
    can still be destroyed with status 0. *)
Theorem create_flow_fails_and_keeps_matcher (ctx attr table out : ptr)
    (match_value : ptr) (num_actions : N) (actions : list ptr)
    (sf : positive) (oldf : ptr) (m : positive) (M : mlx5_matcher)
    (w w1 : world) :
  0 < ENOTSUP ->
  0 < ENOMEM ->
  mlx5_flow_os_create_flow_matcher ctx attr table out w = Some (0, w1) ->
  load_handle out w1 = Some (Ptr m, w1) ->
  load_matcher (Ptr m) w1 = Some (M, w1) ->
  heap w1 !! sf = Some (OHandle oldf) ->
  out <> Ptr sf ->
  exists w2 w3,
    mlx5_flow_os_create_flow (Ptr m) match_value num_actions actions
      (Ptr sf) w1 = Some (- ENOTSUP, w2)
    /\ load_handle (Ptr sf) w2 = Some (NULL, w2)
    /\ created_matcher out w2 = Some (M, w2)
    /\ mlx5_flow_os_destroy_flow_matcher (Ptr m) w2 = Some (0, w3).
Proof.
  intros Hsup Hmem Hc Hh HM Hsf Hne.
  apply create_flow_matcher_inv in Hc
    as (s & old & ka & a & -> & Hs & -> & Hka
        & [(_ & Hr & _)|[(_ & _ & Hr & _)|(_ & _ & m' & km & mp & Hm & _ & _
                                            & _ & Hheap & _)]]);
    [lia|lia|].
  assert (Hfresh := next_alloc_fresh _ _ Hm).
  assert (Hms : m' <> s) by congruence.
  assert (Hs1 : heap w1 !! s = Some (OHandle (Ptr m')))
    by (rewrite Hheap; lookup).
  assert (Hm1 : heap w1 !! m' = Some (OMatcher (built_matcher ctx a mp)))
    by (rewrite Hheap; lookup).
  rewrite (load_handle_run _ _ _ Hs1) in Hh. injection Hh as ->.
  rewrite (load_matcher_run _ _ _ Hm1) in HM. injection HM as <-.
  assert (Hsfs : sf <> s) by congruence.
  assert (Hsfm : sf <> m) by congruence.
  rewrite (create_flow_run _ _ _ _ _ _ _ Hsf).
  eexists _, _. split; [reflexivity|].
  split; [apply load_handle_run; lookup|].
  split; [apply (created_matcher_run s m); lookup|].
  eapply destroy_flow_matcher_run. lookup.
Qed.

(** X14.  With two matchers alive, destroying the first returns 0, makes
    one call, the release of that handle, and does not write [rte_errno];
    the first handle then designates nothing, while the second matcher
    reads back unchanged through its output cell and can be destroyed with
    status 0 in its turn. *)
Theorem destroy_flow_matcher_keeps_others (ctx1 attr1 table1 out1 : ptr)
    (ctx2 attr2 table2 out2 : ptr) (m1 : positive) (M2 : mlx5_matcher)
    (w w1 w2 : world) :
  0 < ENOTSUP ->
  0 < ENOMEM ->
  mlx5_flow_os_create_flow_matcher ctx1 attr1 table1 out1 w = Some (0, w1) ->
  load_handle out1 w1 = Some (Ptr m1, w1) ->
  mlx5_flow_os_create_flow_matcher ctx2 attr2 table2 out2 w1
  = Some (0, w2) ->
  created_matcher out2 w2 = Some (M2, w2) ->
  exists w3 w4 m2,
    mlx5_flow_os_destroy_flow_matcher (Ptr m1) w2 = Some (0, w3)
    /\ rte_errno w3 = rte_errno w2
    /\ new_calls w2 w3 = [CallFree (Ptr m1)]
    /\ load (Ptr m1) w3 = None
    /\ created_matcher out2 w3 = Some (M2, w3)
    /\ load_handle out2 w3 = Some (Ptr m2, w3)
    /\ m2 <> m1
    /\ mlx5_flow_os_destroy_flow_matcher (Ptr m2) w3 = Some (0, w4).
Proof.
  intros Hsup Hmem Hc1 Hh1 Hc2 HM2.
  apply create_flow_matcher_inv in Hc1
    as (s & old & ka & a & -> & Hs & -> & Hka
        & [(_ & Hr & _)|[(_ & _ & Hr & _)|(_ & _ & m & km & mp & Hm & _ & _
                                            & _ & Hheap & _)]]);
    [lia|lia|].
  assert (Hfresh := next_alloc_fresh _ _ Hm).
  assert (Hms : m <> s) by congruence.
  assert (Hs1 : heap w1 !! s = Some (OHandle (Ptr m)))
    by (rewrite Hheap; lookup).
  assert (Hm1 : heap w1 !! m = Some (OMatcher (built_matcher ctx1 a mp)))
    by (rewrite Hheap; lookup).
  rewrite (load_handle_run _ _ _ Hs1) in Hh1. injection Hh1 as <-.
  apply create_flow_matcher_inv in Hc2
    as (s2 & old2 & ka2 & a2 & -> & Hs2 & -> & Hka2
        & [(_ & Hr & _)|[(_ & _ & Hr & _)|(_ & _ & m2 & km2 & mp2 & Hm2 & _
                                            & _ & _ & Hheap2 & _)]]);
    [lia|lia|].
  assert (Hfresh2 := next_alloc_fresh _ _ Hm2).
  assert (Hs2m : s2 <> m) by congruence.
  assert (Hm2m : m2 <> m) by congruence.
  assert (Hm2s2 : m2 <> s2) by congruence.
  assert (Hs2' : heap w2 !! s2 = Some (OHandle (Ptr m2)))
    by (rewrite Hheap2; lookup).
  assert (Hm2' : heap w2 !! m2
                 = Some (OMatcher (built_matcher ctx2 a2 mp2)))
    by (rewrite Hheap2; lookup).
  assert (Hm1' : heap w2 !! m = Some (OMatcher (built_matcher ctx1 a mp)))
    by (rewrite Hheap2; lookup).
  rewrite (created_matcher_run s2 m2 _ w2 Hs2' Hm2') in HM2.
  injection HM2 as <-.
  rewrite (destroy_flow_matcher_run _ _ _ Hm1').
  eexists _, _, m2. split; [reflexivity|]. split; [reflexivity|].
  split; [apply new_calls_one; reflexivity|].
  split; [unfold load; cbn; rewrite lookup_delete_eq; reflexivity|].
  assert (Hs3 : delete m (heap w2) !! s2 = Some (OHandle (Ptr m2)))
    by (rewrite lookup_delete_ne by congruence; exact Hs2').
  assert (Hm3 : delete m (heap w2) !! m2
                = Some (OMatcher (built_matcher ctx2 a2 mp2)))
    by (rewrite lookup_delete_ne by congruence; exact Hm2').
  split; [apply (created_matcher_run s2 m2); assumption|].
  split; [apply load_handle_run; assumption|].
  split; [exact Hm2m|].
  eapply destroy_flow_matcher_run. exact Hm3.
Qed.

End FlowOs.

(** ** The statements at work on the sample data

    Windows values of the constants: [ENOTSUP] is 129, [ENOMEM] is 12; the
    sizes are scaled down to a 40-byte header and a 4-byte mask. *)

Lemma validate_root_table_status_witness :
  mlx5_flow_os_validate_flow_attributes 129 NULL sample_attr_ok false
    (Ptr 4) sample_world = Some (1, sample_world)
  /\ forall w',
       mlx5_flow_os_validate_flow_attributes 129 NULL sample_attr_ok false
         (Ptr 4) sample_world <> Some (0, w').
Proof.
  destruct (validate_root_table_status 129 NULL sample_attr_ok false (Ptr 4)
              sample_world ltac:(lia)) as [Hok Hnz].
  split; [apply Hok; reflexivity|exact Hnz].
Defined.

Lemma validate_rejects_group_witness :
  exists w',
    mlx5_flow_os_validate_flow_attributes 129 NULL
      sample_attr_group_priority true (Ptr 4) sample_world
    = Some (- 129, w')
    /\ rte_errno w' = 129
    /\ heap w' !! 4%positive
       = Some (OFlowError {| type := RTE_FLOW_ERROR_TYPE_ATTR_GROUP;
                             cause := NULL;
                             message := "groups are not supported" |}).
Proof.
  destruct (validate_rejects_group 129 NULL sample_attr_group_priority true
              (Ptr 4) sample_world)
    as (w' & Hrun & _ & Herrno & _ & Hcell);
    [lia|reflexivity|discriminate|].
  exists w'. split; [exact Hrun|]. split; [exact Herrno|].
  apply Hcell. reflexivity.
Defined.

Lemma validate_first_violation_wins_witness :
  exists r w',
    mlx5_flow_os_validate_flow_attributes 129 NULL
      sample_attr_group_priority true (Ptr 4) sample_world = Some (r, w')
    /\ reported_types sample_world w' = [RTE_FLOW_ERROR_TYPE_ATTR_GROUP].
Proof.
  destruct (validate_first_violation_wins 129 NULL
              sample_attr_group_priority true (Ptr 4) sample_world)
    as (r & w' & Hrun & _ & Hgp); [reflexivity|].
  exists r, w'. split; [exact Hrun|].
  apply Hgp; discriminate.
Defined.

Lemma action_and_flow_stubs_as_written_witness :
  mlx5_flow_os_create_flow_action_dest_devx_tir 129 NULL (Ptr 1) sample_world
  = Some (- 129,
          with_errno 129
            (with_heap (<[1%positive := OHandle NULL]> sample_heap)
               sample_world))
  /\ mlx5_flow_os_create_flow 129 (Ptr 9) (Ptr 3) 0 [] (Ptr 6) sample_world
     = Some (- 129,
             with_errno 129
               (with_heap (<[6%positive := OHandle NULL]> sample_heap)
                  sample_world))
  /\ mlx5_flow_os_destroy_flow_action 129 (Ptr 9) sample_world
     = Some (- 129, with_errno 129 sample_world)
  /\ mlx5_flow_os_destroy_flow 129 (Ptr 9) sample_world = None.
Proof.
  destruct (action_and_flow_stubs_as_written 129 NULL (Ptr 9) (Ptr 9) (Ptr 3)
              (Ptr 9) 0 [] 1 6 (Ptr 77) (Ptr 78) sample_world)
    as (_ & Ha & Hda & Hf & Hdf); [lia|reflexivity|reflexivity|].
  split; [exact Ha|]. split; [exact Hf|]. split; [exact Hda|exact Hdf].
Defined.

Lemma create_flow_matcher_copies_mask_and_attr_witness :
  exists w',
    mlx5_flow_os_create_flow_matcher 129 12 40 4 (Ptr 50) (Ptr 2) NULL
      (Ptr 1) sample_world = Some (0, w')
    /\ created_matcher (Ptr 1) w'
       = Some ({| m_ctx := Ptr 50; m_attr := sample_normal_attr;
                  m_match_buf := match_buf sample_mask |}, w').
Proof.
  destruct (create_flow_matcher_copies_mask_and_attr 129 12 40 4 (Ptr 50)
              NULL 1 2 3 9 (Ptr 77) sample_normal_attr sample_mask
              sample_world)
    as (w' & Hrun & Hread & _); try reflexivity.
  exists w'. split; [exact Hrun|exact Hread].
Defined.

Lemma create_flow_matcher_rejects_other_types_witness :
  exists w',
    mlx5_flow_os_create_flow_matcher 129 12 40 4 (Ptr 50) (Ptr 5) NULL
      (Ptr 1) sample_world = Some (- 129, w')
    /\ load_handle (Ptr 1) w' = Some (NULL, w')
    /\ new_calls sample_world w' = [].
Proof.
  destruct (create_flow_matcher_rejects_other_types 129 12 40 4 (Ptr 50)
              NULL 1 5 (Ptr 77) sample_sniffer_attr sample_world)
    as (w' & Hrun & _ & _ & Hcell & Hcalls & _);
    [lia|reflexivity|reflexivity|discriminate|].
  exists w'. split; [exact Hrun|]. split; [exact Hcell|exact Hcalls].
Defined.

Lemma create_flow_matcher_failure_leaves_null_witness :
  exists w',
    mlx5_flow_os_create_flow_matcher 129 12 40 4 (Ptr 50) (Ptr 2) NULL
      (Ptr 1) sample_world_nomem = Some (- 12, w')
    /\ rte_errno w' = 12
    /\ load_handle (Ptr 1) w' = Some (NULL, w').
Proof.
  destruct (create_flow_matcher_failure_leaves_null 129 12 40 4 (Ptr 50)
              NULL 1 2 (Ptr 77) sample_normal_attr sample_world_nomem)
    as [(w' & Hrun & _ & Herrno & Hcell & _) _];
    [lia|reflexivity|reflexivity|reflexivity|reflexivity|].
  exists w'. split; [exact Hrun|]. split; [exact Herrno|exact Hcell].
Defined.

Lemma destroy_created_flow_matcher_witness :
  exists w1 m w2,
    mlx5_flow_os_create_flow_matcher 129 12 40 4 (Ptr 50) (Ptr 2) NULL
      (Ptr 1) sample_world = Some (0, w1)
    /\ load_handle (Ptr 1) w1 = Some (Ptr m, w1)
    /\ mlx5_flow_os_destroy_flow_matcher (Ptr m) w1 = Some (0, w2).
Proof.
  eexists. 
  assert (Hrun : mlx5_flow_os_create_flow_matcher 129 12 40 4 (Ptr 50)
                   (Ptr 2) NULL (Ptr 1) sample_world = Some (0, ?[w1]))
    by (vm_compute; reflexivity).
  destruct (destroy_created_flow_matcher 129 12 40 4 (Ptr 50) (Ptr 2) NULL
              (Ptr 1) sample_world _ ltac:(lia) ltac:(lia) Hrun)
    as (m & w2 & Hcell & Hd & _).
  exists m, w2. split; [exact Hrun|]. split; [exact Hcell|exact Hd].
Defined.

Lemma create_destroy_create_same_mask_witness :
  exists w1 h1 M1 w2 w3 M2,
    mlx5_flow_os_create_flow_matcher 129 12 40 4 (Ptr 50) (Ptr 2) NULL
      (Ptr 1) sample_world = Some (0, w1)
    /\ load_handle (Ptr 1) w1 = Some (h1, w1)
    /\ load_matcher h1 w1 = Some (M1, w1)
    /\ mlx5_flow_os_destroy_flow_matcher h1 w1 = Some (0, w2)
    /\ mlx5_flow_os_create_flow_matcher 129 12 40 4 (Ptr 50) (Ptr 2) NULL
         (Ptr 1) w2 = Some (0, w3)
    /\ created_matcher (Ptr 1) w3 = Some (M2, w3)
    /\ m_match_buf M2 = m_match_buf M1
    /\ m_match_buf M1 = [Byte.x01; Byte.xff; Byte.x00; Byte.x10].
Proof.
  do 6 eexists.
  do 6 (split; [vm_compute; reflexivity|]).
  split; [|reflexivity].
  eapply (create_destroy_create_same_mask 129 12 40 4 (Ptr 50) (Ptr 2) NULL
            (Ptr 1) _ sample_world);
    [lia|lia|vm_compute; reflexivity ..].
Defined.

Lemma validate_ignores_dev_and_external_witness :
  exists r w1' w2',
    mlx5_flow_os_validate_flow_attributes 129 NULL
      sample_attr_group_priority false (Ptr 4) sample_world = Some (r, w1')
    /\ mlx5_flow_os_validate_flow_attributes 129 (Ptr 30)
         sample_attr_group_priority true NULL sample_world_nomem
       = Some (r, w2')
    /\ reports sample_world w1' = reports sample_world_nomem w2'.
Proof.
  destruct (validate_ignores_dev_and_external 129 NULL (Ptr 30) false true
              sample_attr_group_priority) as [_ H].
  destruct (H (Ptr 4) NULL sample_world sample_world_nomem)
    as (r & w1' & w2' & Ha & Hb & Hc & _); [reflexivity|reflexivity|].
  exists r, w1', w2'. split; [exact Ha|]. split; [exact Hb|exact Hc].
Defined.

Lemma validate_accepts_exactly_witness :
  (- 129 = 1 <-> group sample_attr_egress_only = 0%N
                 /\ priority sample_attr_egress_only = 0%N
                 /\ transfer sample_attr_egress_only = false
                 /\ ingress sample_attr_egress_only = true)
  /\ (- 129 = 1 \/ - 129 = - 129).
Proof.
  edestruct (validate_accepts_exactly 129 (Ptr 30) sample_attr_egress_only
               true NULL sample_world) as (Hiff & Hcases & _);
    [lia|vm_compute; reflexivity|].
  split; [exact Hiff|exact Hcases].
Defined.

Lemma validate_rejects_priority_witness :
  exists w',
    mlx5_flow_os_validate_flow_attributes 129 NULL sample_attr_priority true
      (Ptr 4) sample_world = Some (- 129, w')
    /\ heap w' !! 4%positive
       = Some (OFlowError {| type := RTE_FLOW_ERROR_TYPE_ATTR_PRIORITY;
                             cause := NULL;
                             message := "priorities are not supported" |}).
Proof.
  destruct (validate_rejects_priority 129 NULL sample_attr_priority true
              (Ptr 4) sample_world)
    as (w' & Hrun & _ & _ & _ & Hcell);
    [lia|reflexivity|reflexivity|discriminate|].
  exists w'. split; [exact Hrun|]. apply Hcell. reflexivity.
Defined.

Lemma validate_rejects_transfer_witness :
  exists w',
    mlx5_flow_os_validate_flow_attributes 129 NULL sample_attr_transfer true
      (Ptr 4) sample_world = Some (- 129, w')
    /\ heap w' !! 4%positive
       = Some (OFlowError {| type := RTE_FLOW_ERROR_TYPE_ATTR_TRANSFER;
                             cause := NULL;
                             message := "transfer not supported" |}).
Proof.
  destruct (validate_rejects_transfer 129 NULL sample_attr_transfer true
              (Ptr 4) sample_world)
    as (w' & Hrun & _ & _ & _ & Hcell);
    [lia|reflexivity|reflexivity|reflexivity|reflexivity|].
  exists w'. split; [exact Hrun|]. apply Hcell. reflexivity.
Defined.

Lemma validate_rejects_missing_ingress_witness :
  exists w',
    mlx5_flow_os_validate_flow_attributes 129 NULL sample_attr_egress_only
      true (Ptr 4) sample_world = Some (- 129, w')
    /\ heap w' !! 4%positive
       = Some (OFlowError {| type := RTE_FLOW_ERROR_TYPE_ATTR_INGRESS;
                             cause := NULL;
                             message := "must specify ingress only" |}).
Proof.
  destruct (validate_rejects_missing_ingress 129 NULL sample_attr_egress_only
              true (Ptr 4) sample_world)
    as (w' & Hrun & _ & _ & _ & Hcell);
    [lia|reflexivity|reflexivity|reflexivity|reflexivity|reflexivity|].
  exists w'. split; [exact Hrun|]. apply Hcell. reflexivity.
Defined.

Lemma validate_touches_only_error_witness :
  exists r w',
    mlx5_flow_os_validate_flow_attributes 129 NULL sample_attr_priority true
      (Ptr 4) sample_world = Some (r, w')
    /\ alloc_plan w' = alloc_plan sample_world
    /\ heap w' !! 2%positive = heap sample_world !! 2%positive.
Proof.
  do 2 eexists. split; [vm_compute; reflexivity|].
  edestruct (validate_touches_only_error 129 NULL sample_attr_priority true
               (Ptr 4) sample_world) as (Hplan & Hframe & _);
    [vm_compute; reflexivity|].
  split; [exact Hplan|]. apply Hframe. discriminate.
Defined.

Lemma create_flow_matcher_errno_contract_witness :
  exists w',
    mlx5_flow_os_create_flow_matcher 129 12 40 4 (Ptr 50) (Ptr 2) NULL
      (Ptr 1) sample_world_long = Some (0, w')
    /\ rte_errno w' = 7.
Proof.
  eexists. split; [vm_compute; reflexivity|].
  edestruct (create_flow_matcher_errno_contract 129 12 40 4 (Ptr 50) (Ptr 2)
               NULL (Ptr 1) sample_world_long) as (_ & Hok & _);
    [lia|lia|vm_compute; reflexivity|].
  apply Hok. reflexivity.
Defined.

Lemma create_flow_matcher_one_allocation_witness :
  exists r w',
    mlx5_flow_os_create_flow_matcher 129 12 40 4 (Ptr 50) (Ptr 2) NULL
      (Ptr 1) sample_world_nomem = Some (r, w')
    /\ new_calls sample_world_nomem w'
       = [CallMalloc true 44 0 SOCKET_ID_ANY NULL].
Proof.
  do 2 eexists. split; [vm_compute; reflexivity|].
  edestruct (create_flow_matcher_one_allocation 129 12 40 4 (Ptr 50) NULL
               (Ptr 1) 2 sample_normal_attr sample_world_nomem)
    as (Hcalls & _); [vm_compute; reflexivity|reflexivity|reflexivity|].
  exact Hcalls.
Defined.

Lemma create_flow_matcher_frame_witness :
  exists r w',
    mlx5_flow_os_create_flow_matcher 129 12 40 4 (Ptr 50) (Ptr 2) NULL
      (Ptr 1) sample_world = Some (r, w')
    /\ heap w' !! 2%positive = heap sample_world !! 2%positive
    /\ heap w' !! 3%positive = heap sample_world !! 3%positive.
Proof.
  do 2 eexists. split; [vm_compute; reflexivity|].
  edestruct (create_flow_matcher_frame 129 12 40 4 (Ptr 50) (Ptr 2) NULL
               (Ptr 1) sample_world) as (Hframe & Hattr);
    [vm_compute; reflexivity|].
  split; [apply Hattr; reflexivity|].
  apply Hframe; discriminate.
Defined.

Lemma create_flow_matcher_mask_prefix_witness :
  exists w' M,
    mlx5_flow_os_create_flow_matcher 129 12 40 4 (Ptr 50) (Ptr 2) NULL
      (Ptr 1) sample_world_long = Some (0, w')
    /\ created_matcher (Ptr 1) w' = Some (M, w')
    /\ m_match_buf M = [Byte.x0a; Byte.x0b; Byte.x0c; Byte.x0d].
Proof.
  destruct (create_flow_matcher_mask_prefix 129 12 40 4 (Ptr 50) NULL
              1 2 3 9 (Ptr 77) sample_normal_attr sample_long_mask
              sample_world_long)
    as (w' & M & Hrun & Hread & Hbuf & _);
    [reflexivity|reflexivity|reflexivity|reflexivity|reflexivity
    |cbn; lia|reflexivity|].
  exists w', M. split; [exact Hrun|]. split; [exact Hread|exact Hbuf].
Defined.

Lemma create_then_destroy_restores_store_witness :
  exists w1 w2,
    mlx5_flow_os_create_flow_matcher 129 12 40 4 (Ptr 50) (Ptr 2) NULL
      (Ptr 1) sample_world = Some (0, w1)
    /\ mlx5_flow_os_destroy_flow_matcher (Ptr 9) w1 = Some (0, w2)
    /\ heap w2 !! 9%positive = heap sample_world !! 9%positive
    /\ load (Ptr 9) w2 = None.
Proof.
  do 2 eexists. do 2 (split; [vm_compute; reflexivity|]).
  edestruct (create_then_destroy_restores_store 129 12 40 4 (Ptr 50) (Ptr 2)
               NULL (Ptr 1) (Ptr 9) sample_world)
    as (_ & Hframe & _ & Hgone & _);
    [lia|lia|vm_compute; reflexivity ..|].
  split; [apply Hframe; discriminate|exact Hgone].
Defined.

Lemma create_flow_matcher_keeps_earlier_witness :
  exists w1 w2 m2,
    mlx5_flow_os_create_flow_matcher 129 12 40 4 (Ptr 50) (Ptr 2) NULL
      (Ptr 1) sample_world_long = Some (0, w1)
    /\ mlx5_flow_os_create_flow_matcher 129 12 40 4 (Ptr 51) (Ptr 2) NULL
         (Ptr 6) w1 = Some (0, w2)
    /\ load_handle (Ptr 6) w2 = Some (Ptr m2, w2)
    /\ m2 <> 9%positive.
Proof.
  do 2 eexists.
  edestruct (create_flow_matcher_keeps_earlier 129 12 40 4 (Ptr 50) (Ptr 2)
               NULL (Ptr 1) (Ptr 51) (Ptr 2) NULL (Ptr 6) 9
               sample_world_long) as (_ & Hsecond);
    [lia|lia|vm_compute; reflexivity ..|].
  destruct (Hsecond eq_refl) as (m2 & Hcell & Hne).
  exists m2. do 2 (split; [vm_compute; reflexivity|]).
  split; [exact Hcell|exact Hne].
Defined.

Lemma create_flow_fails_and_keeps_matcher_witness :
  exists w1 w2 w3,
    mlx5_flow_os_create_flow_matcher 129 12 40 4 (Ptr 50) (Ptr 2) NULL
      (Ptr 1) sample_world = Some (0, w1)
    /\ mlx5_flow_os_create_flow 129 (Ptr 9) (Ptr 3) 0 [] (Ptr 6) w1
       = Some (- 129, w2)
    /\ mlx5_flow_os_destroy_flow_matcher (Ptr 9) w2 = Some (0, w3).
Proof.
  eexists.
  edestruct (create_flow_fails_and_keeps_matcher 129 12 40 4 (Ptr 50)
               (Ptr 2) NULL (Ptr 1) (Ptr 3) 0 [] 6 (Ptr 78) 9)
    with (w := sample_world) as (w2 & w3 & Hflow & _ & _ & Hd);
    [lia|lia|vm_compute; reflexivity ..|discriminate|].
  exists w2, w3. split; [vm_compute; reflexivity|].
  split; [exact Hflow|exact Hd].
Defined.

Lemma destroy_flow_matcher_keeps_others_witness :
  exists w1 w2 M2 w3 w4 m2,
    mlx5_flow_os_create_flow_matcher 129 12 40 4 (Ptr 50) (Ptr 2) NULL
      (Ptr 1) sample_world_long = Some (0, w1)
    /\ mlx5_flow_os_create_flow_matcher 129 12 40 4 (Ptr 51) (Ptr 2) NULL
         (Ptr 6) w1 = Some (0, w2)
    /\ mlx5_flow_os_destroy_flow_matcher (Ptr 9) w2 = Some (0, w3)
    /\ rte_errno w3 = 7
    /\ load (Ptr 9) w3 = None
    /\ created_matcher (Ptr 6) w2 = Some (M2, w2)
    /\ created_matcher (Ptr 6) w3 = Some (M2, w3)
    /\ mlx5_flow_os_destroy_flow_matcher (Ptr m2) w3 = Some (0, w4).
Proof.
  do 3 eexists.
  edestruct (destroy_flow_matcher_keeps_others 129 12 40 4 (Ptr 50) (Ptr 2)
               NULL (Ptr 1) (Ptr 51) (Ptr 2) NULL (Ptr 6) 9)
    with (w := sample_world_long)
    as (w3 & w4 & m2 & Hd & Herr & _ & Hgone & Hread & _ & _ & Hd2);
    [lia|lia|vm_compute; reflexivity ..|].
  exists w3, w4, m2.
  do 2 (split; [vm_compute; reflexivity|]).
  split; [exact Hd|]. split; [exact Herr|]. split; [exact Hgone|].
  split; [vm_compute; reflexivity|]. split; [exact Hread|exact Hd2].
Defined.
